(** * Stock price tracker: the fetch / normalise / derive pipeline

    A shallow embedding of [hw2/stock_price_tracker.py].  The Python
    functions [fetch_stock_data], [fetch_current_quote],
    [create_price_chart], [display_stock_info] and [main] are written as
    computations in a small monad that threads the list of HTTP requests
    issued and the list of widgets drawn, and that can raise a Python
    exception.  The libraries the script calls (requests, pandas,
    datetime, streamlit) are modelled by the functions of Part I. *)

From Stdlib Require Import QArith Qround Qabs Ascii.
From stdpp Require Import gmap strings list fin_maps sorting pretty.

Set Warnings "-register-all".
Set Default Proof Using "Type".

(* ===================================================================== *)
(** * Part I: definitions                                                 *)
(* ===================================================================== *)

(** ** Python values

    What [response.json()] can return: a JSON document read into Python
    objects.  Numbers (int and float alike) are kept as the rational they
    denote; the rounding of a decimal to the nearest binary float is not
    modelled, it is monotone and so preserves every comparison made here. *)

Inductive pyval :=
| PNone
| PBool (b : bool)
| PNum (q : Q)
| PStr (s : string)
| PList (l : list pyval)
| PDict (d : gmap string pyval).

(** Python exceptions, split the way the handlers of the script split them:
    [requests.exceptions.RequestException] and its subclasses, and every
    other subclass of [Exception]; each carries [str(e)]. *)
Inductive exn :=
| RequestException (msg : string)
| Exception (msg : string).

Inductive outcome (A : Type) :=
| Ret (a : A)
| Raise (e : exn).
Arguments Ret {A} a.
Arguments Raise {A} e.

(** ** The exception monad of pure Python expressions *)

#[global] Instance outcome_ret : MRet outcome := λ A a, Ret a.
#[global] Instance outcome_bind : MBind outcome := λ A B f m,
  match m with
  | Ret a => f a
  | Raise e => Raise e
  end.

(** ** Decimal text

    [float(s)], [pd.to_numeric] and the [:.2f] / [:,.0f] format
    specifications, on plain decimal literals (an optional sign, digits, an
    optional fraction).  Exponents, infinities and [nan] literals are left
    out: such text counts as unparsable here. *)

Module Decimal.

Definition digit_of (c : ascii) : option N :=
  let n := N_of_ascii c in
  if ((48 <=? n) && (n <=? 57))%N then Some (n - 48)%N else None.

(** Reads the leading digits of [s] onto the accumulator [acc]; returns
    the accumulator, how many digits were read, and the rest. *)
Fixpoint take_digits (s : string) (acc : N) (count : nat) : N * nat * string :=
  match s with
  | EmptyString => (acc, count, s)
  | String c r =>
      match digit_of c with
      | Some d => take_digits r (10 * acc + d)%N (S count)
      | None => (acc, count, s)
      end
  end.

Definition parse (s : string) : option Q :=
  let '(neg, body) :=
    match s with
    | String "-" r => (true, r)
    | String "+" r => (false, r)
    | _ => (false, s)
    end in
  let '(ip, ni, rest) := take_digits body 0 0 in
  let '(mant, nf, rest') :=
    match rest with
    | String "." r => take_digits r ip 0
    | _ => (ip, 0, rest)
    end in
  match rest' with
  | EmptyString =>
      if Nat.eqb (ni + nf) 0 then None
      else
        let m := Z.of_N mant in
        Some (Qred (Qmake (if neg then - m else m) (Z.to_pos (10 ^ Z.of_nat nf))))
  | _ => None
  end.

(** Rounding to the nearest integer, ties to even. *)
Definition round_half_even (q : Q) : Z :=
  let f := Qfloor q in
  match Qcompare (q - inject_Z f) (1 # 2) with
  | Lt => f
  | Gt => (f + 1)%Z
  | Eq => if Z.even f then f else (f + 1)%Z
  end.

Definition zfill (width : nat) (s : string) : string :=
  String.concat "" (replicate (width - String.length s) "0") +:+ s.

(** [f"{x:.2f}"] for a finite [x]. *)
Definition format_2f (q : Q) : string :=
  let n := round_half_even (Qabs q * 100) in
  (if Qlt_le_dec q 0 then "-" else "")
    +:+ pretty (n / 100)%Z +:+ "." +:+ zfill 2 (pretty (n mod 100)%Z).

(** Digit groups of three, separated by commas. *)
Fixpoint group_thousands (fuel : nat) (n : Z) : string :=
  match fuel with
  | O => pretty n
  | S fuel' =>
      if (n <? 1000)%Z then pretty n
      else group_thousands fuel' (n / 1000)%Z +:+ "," +:+ zfill 3 (pretty (n mod 1000)%Z)
  end.

(** [f"{x:,.0f}"] for a finite [x]. *)
Definition format_comma_0f (q : Q) : string :=
  let n := round_half_even (Qabs q) in
  (if Qlt_le_dec q 0 then "-" else "") +:+ group_thousands (Z.to_nat (Z.log2 n)) n.

(** A float cell: [None] is [nan]. *)
Definition format_2f_nan (x : option Q) : string :=
  match x with Some q => format_2f q | None => "nan" end.

Definition format_comma_0f_nan (x : option Q) : string :=
  match x with Some q => format_comma_0f q | None => "nan" end.

End Decimal.

(** ** Python built-ins *)

Module Py.

(** [bool(v)]: the test made by [if v:] and by [not v]. *)
Definition truthy (v : pyval) : bool :=
  match v with
  | PNone => false
  | PBool b => b
  | PNum q => negb (Qeq_bool q 0)
  | PStr s => negb (String.eqb s "")
  | PList l => match l with [] => false | _ => true end
  | PDict d => negb (bool_decide (d = ∅))
  end.

(** [str.upper()] and [str.strip()] on ASCII text (strings are kept as
    byte strings; the case mapping of non-ASCII letters is not modelled).
    On ASCII text the two, and [len], are Python's own; what is proved of
    [main] below is stated for ASCII input. *)
Definition upper_ascii (c : ascii) : ascii :=
  let n := N_of_ascii c in
  if ((97 <=? n) && (n <=? 122))%N then ascii_of_N (n - 32) else c.

Fixpoint upper (s : string) : string :=
  match s with
  | EmptyString => EmptyString
  | String c r => String (upper_ascii c) (upper r)
  end.

Definition isspace (c : ascii) : bool :=
  let n := N_of_ascii c in
  (((9 <=? n) && (n <=? 13)) || ((28 <=? n) && (n <=? 32)))%N.

Fixpoint lstrip (s : string) : string :=
  match s with
  | EmptyString => EmptyString
  | String c r => if isspace c then lstrip r else s
  end.

Definition rstrip (s : string) : string :=
  String.rev (lstrip (String.rev s)).

Definition strip (s : string) : string := rstrip (lstrip s).

(** [all(test(c) for c in s)]. *)
Fixpoint all_chars (test : ascii → bool) (s : string) : bool :=
  match s with
  | EmptyString => true
  | String c r => test c && all_chars test r
  end.

(** [s.isascii()]. *)
Definition isascii (s : string) : bool :=
  all_chars (λ c, (N_of_ascii c <? 128)%N) s.

(** [s.lower()] on ASCII text. *)
Definition lower_ascii (c : ascii) : ascii :=
  let n := N_of_ascii c in
  if ((65 <=? n) && (n <=? 90))%N then ascii_of_N (n + 32) else c.

Fixpoint lower (s : string) : string :=
  match s with
  | EmptyString => EmptyString
  | String c r => String (lower_ascii c) (lower r)
  end.

(** [sub in s] for two strings. *)
Fixpoint contains (sub s : string) : bool :=
  String.prefix sub s ||
  match s with
  | EmptyString => false
  | String _ r => contains sub r
  end.

(** [key in container], with a [str] on the left. *)
Definition py_in (key : string) (container : pyval) : outcome bool :=
  match container with
  | PDict d => Ret (bool_decide (is_Some (d !! key)))
  | PList l =>
      Ret (existsb (λ x, match x with PStr s => String.eqb s key | _ => false end) l)
  | PStr s => Ret (contains key s)
  | PNone => Raise (Exception "argument of type 'NoneType' is not iterable")
  | PBool _ => Raise (Exception "argument of type 'bool' is not iterable")
  | PNum _ => Raise (Exception "argument of type 'float' is not iterable")
  end.

(** [container[key]], with a [str] key. *)
Definition getitem (container : pyval) (key : string) : outcome pyval :=
  match container with
  | PDict d =>
      match d !! key with
      | Some v => Ret v
      | None => Raise (Exception ("'" +:+ key +:+ "'"))
      end
  | PList _ => Raise (Exception "list indices must be integers or slices, not str")
  | PStr _ => Raise (Exception "string indices must be integers, not 'str'")
  | PNone => Raise (Exception "'NoneType' object is not subscriptable")
  | PBool _ => Raise (Exception "'bool' object is not subscriptable")
  | PNum _ => Raise (Exception "'float' object is not subscriptable")
  end.

(** [container.get(key, fallback)]. *)
Definition get (container : pyval) (key : string) (fallback : pyval) : outcome pyval :=
  match container with
  | PDict d => Ret (default fallback (d !! key))
  | PList _ => Raise (Exception "'list' object has no attribute 'get'")
  | PStr _ => Raise (Exception "'str' object has no attribute 'get'")
  | PNone => Raise (Exception "'NoneType' object has no attribute 'get'")
  | PBool _ => Raise (Exception "'bool' object has no attribute 'get'")
  | PNum _ => Raise (Exception "'float' object has no attribute 'get'")
  end.

(** [v == "text"]. *)
Definition eq_str (v : pyval) (s : string) : bool :=
  match v with PStr t => String.eqb t s | _ => false end.

(** [float(v)]. *)
Definition float (v : pyval) : outcome Q :=
  match v with
  | PNum q => Ret q
  | PBool b => Ret (if b then 1 else 0)%Q
  | PStr s =>
      match Decimal.parse (Py.strip s) with
      | Some q => Ret q
      | None => Raise (Exception ("could not convert string to float: '" +:+ s +:+ "'"))
      end
  | PNone => Raise (Exception "float() argument must be a string or a real number, not 'NoneType'")
  | PList _ => Raise (Exception "float() argument must be a string or a real number, not 'list'")
  | PDict _ => Raise (Exception "float() argument must be a string or a real number, not 'dict'")
  end.

(** [str(v)], as an f-string interpolates it.  A number is printed by its
    two-decimal rendering and a container by a placeholder: the script
    only ever interpolates text here unless the provider sends a message
    that is not text. *)
Definition str (v : pyval) : string :=
  match v with
  | PStr s => s
  | PNone => "None"
  | PBool true => "True"
  | PBool false => "False"
  | PNum q => Decimal.format_2f q
  | PList _ => "[...]"
  | PDict _ => "{...}"
  end.

End Py.

(** ** Calendar dates

    A date is its proleptic Gregorian ordinal (day 1 is 0001-01-01), the
    representation [datetime] itself computes with; the conversions follow
    [_ymd2ord] and [_ord2ymd] of the standard library.  The time of day of
    [datetime.now()] plays no part in [strftime("%Y-%m-%d")] nor in the
    subtraction of whole days, and is left out. *)

Module Calendar.
Local Open Scope Z_scope.

Definition is_leap (year : Z) : bool :=
  (year mod 4 =? 0) && (negb (year mod 100 =? 0) || (year mod 400 =? 0)).

Definition DAYS_IN_MONTH (month : Z) : Z :=
  match month with
  | 1 => 31 | 2 => 28 | 3 => 31 | 4 => 30 | 5 => 31 | 6 => 30
  | 7 => 31 | 8 => 31 | 9 => 30 | 10 => 31 | 11 => 30 | 12 => 31
  | _ => -1
  end.

Definition DAYS_BEFORE_MONTH (month : Z) : Z :=
  match month with
  | 1 => 0 | 2 => 31 | 3 => 59 | 4 => 90 | 5 => 120 | 6 => 151
  | 7 => 181 | 8 => 212 | 9 => 243 | 10 => 273 | 11 => 304 | 12 => 334
  | _ => -1
  end.

Definition days_before_year (year : Z) : Z :=
  let y := year - 1 in y * 365 + y / 4 - y / 100 + y / 400.

Definition days_in_month (year month : Z) : Z :=
  if (month =? 2) && is_leap year then 29 else DAYS_IN_MONTH month.

Definition days_before_month (year month : Z) : Z :=
  DAYS_BEFORE_MONTH month + (if (2 <? month) && is_leap year then 1 else 0).

Definition ymd2ord (year month day : Z) : Z :=
  days_before_year year + days_before_month year month + day.

Definition DI400Y : Z := 146097.
Definition DI100Y : Z := 36524.
Definition DI4Y : Z := 1461.

Definition ord2ymd (ordinal : Z) : Z * Z * Z :=
  let n := ordinal - 1 in
  let n400 := n / DI400Y in let n := n mod DI400Y in
  let year := n400 * 400 + 1 in
  let n100 := n / DI100Y in let n := n mod DI100Y in
  let n4 := n / DI4Y in let n := n mod DI4Y in
  let n1 := n / 365 in let n := n mod 365 in
  let year := year + n100 * 100 + n4 * 4 + n1 in
  if (n1 =? 4) || (n100 =? 4) then (year - 1, 12, 31)
  else
    let leapyear := (n1 =? 3) && (negb (n4 =? 24) || (n100 =? 3)) in
    let month := Z.shiftr (n + 50) 5 in
    let preceding :=
      DAYS_BEFORE_MONTH month + (if (2 <? month) && leapyear then 1 else 0) in
    if n <? preceding then
      let month := month - 1 in
      let preceding :=
        preceding - (DAYS_IN_MONTH month + (if (month =? 2) && leapyear then 1 else 0)) in
      (year, month, n - preceding + 1)
    else (year, month, n - preceding + 1).

(** A number in a field of fixed width, padded with zeros: the [%0wd] of
    C's [strftime]. *)
Definition digit_char (d : Z) : ascii := ascii_of_N (48 + Z.to_N (d mod 10)).

Fixpoint zero_padded (width : nat) (n : Z) : string :=
  match width with
  | O => EmptyString
  | S width' => String (digit_char (n / 10 ^ Z.of_nat width')) (zero_padded width' n)
  end.

(** [d.strftime("%Y-%m-%d")], for a year of four digits. *)
Definition strftime_ymd (ordinal : Z) : string :=
  let '(y, m, d) := ord2ymd ordinal in
  zero_padded 4 y +:+ "-" +:+ zero_padded 2 m +:+ "-" +:+ zero_padded 2 d.

(** Reading a [YYYY-MM-DD] string, the form in which the provider dates a
    daily bar.  [Some] ordinal for a date of the calendar, [None] for any
    other text. *)
Fixpoint fixed_digits (width : nat) (s : string) (acc : N) : option (Z * string) :=
  match width with
  | O => Some (Z.of_N acc, s)
  | S width' =>
      match s with
      | String c r =>
          match Decimal.digit_of c with
          | Some d => fixed_digits width' r (10 * acc + d)%N
          | None => None
          end
      | EmptyString => None
      end
  end.

Definition parse_ymd (s : string) : option Z :=
  '(y, r1) ← fixed_digits 4 s 0;
  match r1 with
  | String "-" r2 =>
      '(m, r3) ← fixed_digits 2 r2 0;
      match r3 with
      | String "-" r4 =>
          '(d, r5) ← fixed_digits 2 r4 0;
          match r5 with
          | EmptyString =>
              if (1 <=? y) && (1 <=? m) && (m <=? 12)
                 && (1 <=? d) && (d <=? days_in_month y m)
              then Some (ymd2ord y m d) else None
          | _ => None
          end
      | _ => None
      end
  | _ => None
  end.

End Calendar.

(** ** pandas

    A frame built from the provider's row-oriented payload: one row per
    record, one column per key that occurs in some record; a record that
    lacks a key has a missing cell there.  After the conversions of
    [fetch_stock_data] the six columns the script reads are typed: a
    timestamp column ([None] is [NaT]) and five float columns ([None] is
    [NaN]).  Columns the script never reads are not kept. *)

Module Pandas.

Record RawFrame := {
  raw_columns : gset string;
  raw_rows : list (gmap string pyval)
}.

Record Bar := {
  bar_datetime : option Z;
  bar_open : option Q;
  bar_high : option Q;
  bar_low : option Q;
  bar_close : option Q;
  bar_volume : option Q
}.

Record DataFrame := {
  columns : gset string;
  rows : list Bar
}.

Definition as_record (v : pyval) : option (gmap string pyval) :=
  match v with PDict d => Some d | _ => None end.

(** [pd.DataFrame(values)] for a list of records.  Every other shape of
    [values] is taken to end in an exception, raised by the constructor
    or by the first column access that follows it (column-oriented
    payloads are outside this model). *)
Definition DataFrame_of (values : pyval) : outcome RawFrame :=
  match values with
  | PList items =>
      match mapM as_record items with
      | Some records =>
          Ret {| raw_columns := ⋃ (dom <$> records); raw_rows := records |}
      | None => Raise (Exception "'datetime'")
      end
  | _ => Raise (Exception "DataFrame constructor not properly called!")
  end.

(** One cell of [pd.to_datetime(column)]: text in the provider's date
    format becomes a timestamp, a missing cell or [None] becomes [NaT],
    text that is no date raises.  (Numbers, which pandas reads as epoch
    offsets, are treated as not convertible.) *)
Definition to_datetime (cell : option pyval) : outcome (option Z) :=
  match cell with
  | None | Some PNone => Ret None
  | Some (PStr s) =>
      match Calendar.parse_ymd s with
      | Some d => Ret (Some d)
      | None => Raise (Exception ("Unknown datetime string format, unable to parse: " +:+ s))
      end
  | Some _ => Raise (Exception "cell is not convertible to datetime")
  end.

(** One cell of [pd.to_numeric(column, errors="coerce")]: whatever does
    not read as a number becomes [NaN]; nothing raises. *)
Definition to_numeric (cell : option pyval) : option Q :=
  match cell with
  | Some (PNum q) => Some q
  | Some (PBool b) => Some (if b then 1 else 0)%Q
  | Some (PStr s) => Decimal.parse (Py.strip s)
  | Some PNone | Some (PList _) | Some (PDict _) | None => None
  end.

(** The order of [sort_values] on a timestamp column: ascending, with
    [NaT] after every timestamp. *)
Definition datetime_le (a b : Bar) : Prop :=
  match bar_datetime a, bar_datetime b with
  | Some x, Some y => (x ≤ y)%Z
  | _, None => True
  | None, Some _ => False
  end.

#[global] Instance datetime_le_dec a b : Decision (datetime_le a b).
Proof.
  unfold datetime_le.
  destruct (bar_datetime a), (bar_datetime b); apply _.
Defined.

(** [df.sort_values("datetime")].  Rows with equal timestamps may come
    out in any relative order in pandas (the default sort is not stable);
    nothing below depends on the order this sort gives them. *)
Definition sort_values_datetime (df : DataFrame) : DataFrame :=
  {| columns := columns df; rows := merge_sort datetime_le (rows df) |}.

(** [df.tail(n)]. *)
Definition tail (n : nat) (df : DataFrame) : DataFrame :=
  {| columns := columns df; rows := drop (length (rows df) - n) (rows df) |}.

(** [df.empty]. *)
Definition empty (df : DataFrame) : bool :=
  match rows df with [] => true | _ => false end.

Definition numeric_field (name : string) : Bar → option Q :=
  if String.eqb name "open" then bar_open
  else if String.eqb name "high" then bar_high
  else if String.eqb name "low" then bar_low
  else if String.eqb name "close" then bar_close
  else if String.eqb name "volume" then bar_volume
  else λ _, None.

(** [df[name]] for one of the float columns: [KeyError] when no record
    had the key. *)
Definition getitem (df : DataFrame) (name : string) : outcome (list (option Q)) :=
  if bool_decide (name ∈ columns df)
  then Ret (numeric_field name <$> rows df)
  else Raise (Exception ("'" +:+ name +:+ "'")).

(** [df["datetime"]]. *)
Definition getitem_datetime (df : DataFrame) : outcome (list (option Z)) :=
  if bool_decide ("datetime" ∈ columns df)
  then Ret (bar_datetime <$> rows df)
  else Raise (Exception "'datetime'").

(** [Series.max()] and [Series.min()]: [NaN] cells are skipped; the
    result is [NaN] when no cell is left. *)
Definition pick (better : Q → Q → bool) (acc : option Q) (cell : option Q) : option Q :=
  match acc, cell with
  | Some a, Some c => Some (if better c a then c else a)
  | None, c => c
  | a, None => a
  end.

Definition max (column : list (option Q)) : option Q :=
  foldl (pick (λ c a, negb (Qle_bool c a))) None column.

Definition min (column : list (option Q)) : option Q :=
  foldl (pick (λ c a, negb (Qle_bool a c))) None column.

End Pandas.

(** ** requests, streamlit and plotly

    The provider is a function from the request sent to what comes back:
    no response at all (connection failure, timeout), or a response with a
    status code and a body that is or is not a JSON document.  Every call
    is recorded, and so is every widget put on the page. *)

Record Request := {
  url : string;
  params : gmap string string;
  timeout : Z
}.

Record Response := {
  status_code : Z;
  reason : string;
  json_body : option pyval
}.

Inductive Reply :=
| NoResponse (msg : string)
| Responds (r : Response).

(** The candlestick figure of [create_price_chart]: the five columns of
    the trace, its name and the layout title (the fixed colours, axis
    titles and height are left out). *)
Record Figure := {
  trace_x : list (option Z);
  trace_open : list (option Q);
  trace_high : list (option Q);
  trace_low : list (option Q);
  trace_close : list (option Q);
  trace_name : string;
  layout_title : string
}.

(** A row of the raw-data table as displayed. *)
Record TableRow := {
  Date : option string;
  Open : string;
  High : string;
  Low : string;
  Close : string;
  Volume : string
}.

Inductive Widget :=
| st_error (body : string)
| st_info (body : string)
| st_success (body : string)
| st_spinner (text : string)
| st_markdown (body : string)
| st_subheader (body : string)
| st_metric (label value : string) (delta : option string)
| st_plotly_chart (fig : Figure)
| st_dataframe (table : list TableRow).

Record Env := {
  clock : Z;
  environ : gmap string string;
  provider : Request → Reply
}.

Record World := {
  calls : list Request;
  page : list Widget
}.

Definition Run (A : Type) : Type := Env → World → outcome A * World.

#[global] Instance run_ret : MRet Run := λ A a _ w, (Ret a, w).
#[global] Instance run_bind : MBind Run := λ A B f m env w,
  match m env w with
  | (Ret a, w') => f a env w'
  | (Raise e, w') => (Raise e, w')
  end.

Definition lift {A} (o : outcome A) : Run A := λ _ w, (o, w).

(** [try: body except ...: handler]; [handler] returns [None] for an
    exception its clauses do not catch. *)
Definition try_except {A} (body : Run A) (handler : exn → option (Run A)) : Run A :=
  λ env w,
    match body env w with
    | (Raise e, w') =>
        match handler e with
        | Some h => h env w'
        | None => (Raise e, w')
        end
    | r => r
    end.

(** Reading the environment: the clock, the process environment. *)
Definition config {A} (f : Env → A) : Run A := λ env w, (Ret (f env), w).

Definition draw (x : Widget) : Run unit :=
  λ _ w, (Ret tt, {| calls := calls w; page := page w ++ [x] |}).

Definition initial : World := {| calls := []; page := [] |}.

Module datetime.

(** [datetime.now()], as a date. *)
Definition now : Run Z := config clock.

End datetime.

Module requests.

(** [requests.get(url, params=params, timeout=timeout)]. *)
Definition get (url : string) (params : gmap string string) (timeout : Z) : Run Response :=
  λ env w,
    let request := {| url := url; params := params; timeout := timeout |} in
    let w' := {| calls := calls w ++ [request]; page := page w |} in
    match provider env request with
    | NoResponse msg => (Raise (RequestException msg), w')
    | Responds r => (Ret r, w')
    end.

(** [response.raise_for_status()]: an [HTTPError] for a 4xx or 5xx status
    (the url that ends the library's message is left out). *)
Definition raise_for_status (r : Response) : outcome unit :=
  if ((400 <=? status_code r) && (status_code r <? 500))%Z
  then Raise (RequestException (pretty (status_code r) +:+ " Client Error: " +:+ reason r))
  else if ((500 <=? status_code r) && (status_code r <? 600))%Z
  then Raise (RequestException (pretty (status_code r) +:+ " Server Error: " +:+ reason r))
  else Ret tt.

(** [response.json()]; its [JSONDecodeError] is a [RequestException]
    (requests 2.27 and later). *)
Definition json (r : Response) : outcome pyval :=
  match json_body r with
  | Some data => Ret data
  | None => Raise (RequestException "Expecting value: line 1 column 1 (char 0)")
  end.

End requests.

(** ** The script *)

(** [API_KEY = os.getenv("TWELVE_DATA_API_KEY", "demo")]. *)
Definition API_KEY (env : Env) : string :=
  default "demo" (environ env !! "TWELVE_DATA_API_KEY").

Definition BASE_URL : string := "https://api.twelvedata.com".

(** The conversions of lines 62 to 67 on one record of the raw frame. *)
Definition convert_numeric (df : Pandas.RawFrame) (col : string)
    (record : gmap string pyval) : option Q :=
  if bool_decide (col ∈ Pandas.raw_columns df)
  then Pandas.to_numeric (record !! col)
  else None.

Definition convert_columns (df : Pandas.RawFrame) : outcome Pandas.DataFrame :=
  stamps ←
    (if bool_decide ("datetime" ∈ Pandas.raw_columns df)
     then mapM (λ record : gmap string pyval, Pandas.to_datetime (record !! "datetime"))
            (Pandas.raw_rows df)
     else Raise (Exception "'datetime'"));
  mret {| Pandas.columns := Pandas.raw_columns df;
          Pandas.rows :=
            zip_with (λ stamp record,
                {| Pandas.bar_datetime := stamp;
                   Pandas.bar_open := convert_numeric df "open" record;
                   Pandas.bar_high := convert_numeric df "high" record;
                   Pandas.bar_low := convert_numeric df "low" record;
                   Pandas.bar_close := convert_numeric df "close" record;
                   Pandas.bar_volume := convert_numeric df "volume" record |})
              stamps (Pandas.raw_rows df) |}.

Definition fetch_stock_data (symbol : string) : Run (option Pandas.DataFrame * pyval) :=
  try_except
    (end_date ← datetime.now;
     let start_date := (end_date - 10)%Z in
     let start_date_str := Calendar.strftime_ymd start_date in
     let end_date_str := Calendar.strftime_ymd end_date in
     let url := BASE_URL +:+ "/time_series" in
     api_key ← config API_KEY;
     let params : gmap string string :=
       {[ "symbol" := Py.upper symbol;
          "interval" := "1day";
          "start_date" := start_date_str;
          "end_date" := end_date_str;
          "apikey" := api_key;
          "format" := "JSON" ]} in
     response ← requests.get url params 10;
     lift (requests.raise_for_status response);;
     data ← lift (requests.json response);
     has_status ← lift (Py.py_in "status" data);
     is_error ←
       (if has_status : bool
        then status ← lift (Py.getitem data "status"); mret (Py.eq_str status "error")
        else mret false);
     if is_error : bool
     then
       message ← lift (Py.get data "message" (PStr "API returned an error"));
       mret (None, message)
     else
       has_values ← lift (Py.py_in "values" data);
       no_values ←
         (if negb has_values
          then mret true
          else values ← lift (Py.getitem data "values"); mret (negb (Py.truthy values)));
       if no_values : bool
       then
         mret (None, PStr ("No data found for symbol " +:+ symbol
                             +:+ ". Please check if the symbol is valid."))
       else
         values ← lift (Py.getitem data "values");
         raw ← lift (Pandas.DataFrame_of values);
         df ← lift (convert_columns raw);
         let df := Pandas.sort_values_datetime df in
         let df := Pandas.tail 7 df in
         mret (Some df, PNone))
    (λ e,
       match e with
       | RequestException msg => Some (mret (None, PStr ("Network error: " +:+ msg)))
       | Exception msg => Some (mret (None, PStr ("Error processing data: " +:+ msg)))
       end).

Definition fetch_current_quote (symbol : string) : Run pyval :=
  try_except
    (let url := BASE_URL +:+ "/quote" in
     api_key ← config API_KEY;
     let params : gmap string string :=
       {[ "symbol" := Py.upper symbol; "apikey" := api_key ]} in
     response ← requests.get url params 10;
     lift (requests.raise_for_status response);;
     data ← lift (requests.json response);
     has_status ← lift (Py.py_in "status" data);
     is_error ←
       (if has_status : bool
        then status ← lift (Py.getitem data "status"); mret (Py.eq_str status "error")
        else mret false);
     if is_error : bool then mret PNone else mret data)
    (λ _, Some (mret PNone)).

Definition create_price_chart (df : Pandas.DataFrame) (symbol : string) : outcome Figure :=
  x ← Pandas.getitem_datetime df;
  open ← Pandas.getitem df "open";
  high ← Pandas.getitem df "high";
  low ← Pandas.getitem df "low";
  close ← Pandas.getitem df "close";
  mret {| trace_x := x;
          trace_open := open;
          trace_high := high;
          trace_low := low;
          trace_close := close;
          trace_name := Py.upper symbol +:+ " Price";
          layout_title := Py.upper symbol +:+ " - 7-Day Price Chart" |}.

Definition display_stock_info (quote_data : pyval) (df : option Pandas.DataFrame) : Run unit :=
  match df with
  | Some df =>
      if Py.truthy quote_data
      then
        (* Current price *)
        current_price ← lift (Py.get quote_data "close" PNone);
        (if Py.truthy current_price
         then
           price ← lift (Py.float current_price);
           draw (st_metric "Current Price" ("$" +:+ Decimal.format_2f price) None)
         else mret tt);;
        (* Daily change *)
        change ← lift (Py.get quote_data "change" PNone);
        percent_change ← lift (Py.get quote_data "percent_change" PNone);
        (if Py.truthy change && Py.truthy percent_change
         then
           c ← lift (Py.float change);
           pc ← lift (Py.float percent_change);
           draw (st_metric "Daily Change" ("$" +:+ Decimal.format_2f c)
                   (Some (Decimal.format_2f pc +:+ "%")))
         else mret tt);;
        (* 7-day range *)
        if negb (Pandas.empty df)
        then
          high ← lift (Pandas.getitem df "high");
          let week_high := Pandas.max high in
          low ← lift (Pandas.getitem df "low");
          let week_low := Pandas.min low in
          draw (st_metric "7-Day High" ("$" +:+ Decimal.format_2f_nan week_high) None);;
          draw (st_metric "7-Day Low" ("$" +:+ Decimal.format_2f_nan week_low) None)
        else mret tt
      else mret tt
  | None => mret tt
  end.

(** The raw-data table of lines 218 to 226. *)
Definition display_table (df : Pandas.DataFrame) : outcome (list TableRow) :=
  stamps ← Pandas.getitem_datetime df;
  open ← Pandas.getitem df "open";
  high ← Pandas.getitem df "high";
  low ← Pandas.getitem df "low";
  close ← Pandas.getitem df "close";
  volume ← Pandas.getitem df "volume";
  mret ((λ bar : Pandas.Bar,
           {| Date := Calendar.strftime_ymd <$> Pandas.bar_datetime bar;
              Open := "$" +:+ Decimal.format_2f_nan (Pandas.bar_open bar);
              High := "$" +:+ Decimal.format_2f_nan (Pandas.bar_high bar);
              Low := "$" +:+ Decimal.format_2f_nan (Pandas.bar_low bar);
              Close := "$" +:+ Decimal.format_2f_nan (Pandas.bar_close bar);
              Volume := Decimal.format_comma_0f_nan (Pandas.bar_volume bar) |})
          <$> Pandas.rows df).

(** The block under [if not symbol:] (each of the three lists of example
    symbols is written on one line). *)
Definition instructions (symbol : string) : Run unit :=
  if negb (Py.truthy (PStr symbol))
  then
    draw (st_info "👆 Enter a stock symbol above to get started");;
    draw (st_markdown "### 💡 Popular Stock Symbols");;
    draw (st_markdown "**Technology:** AAPL (Apple), GOOGL (Google), MSFT (Microsoft), TSLA (Tesla)");;
    draw (st_markdown "**Finance:** JPM (JPMorgan), BAC (Bank of America), WFC (Wells Fargo), GS (Goldman Sachs)");;
    draw (st_markdown "**Other:** AMZN (Amazon), NFLX (Netflix), NVDA (NVIDIA), META (Meta)")
  else mret tt.

(** [main], given what the text input and the button return (the input
    row itself is not recorded on the page).  A Python [return] inside the
    lookup block ends the function: the instructions block is reached only
    where the code falls through to it. *)
Definition main (symbol : string) (search_button : bool) : Run unit :=
  if Py.truthy (PStr symbol) && (search_button || Py.truthy (PStr symbol))
  then
    let symbol := Py.upper (Py.strip symbol) in
    if (String.length symbol <? 1) || (10 <? String.length symbol)
    then draw (st_error "Please enter a valid stock symbol (1-10 characters)")
    else
      draw (st_spinner ("Fetching data for " +:+ symbol +:+ "..."));;
      '(df, error) ← fetch_stock_data symbol;
      quote_data ← fetch_current_quote symbol;
      if Py.truthy error
      then
        draw (st_error ("❌ " +:+ Py.str error));;
        draw (st_info "💡 **Tip**: Make sure you're using a valid stock symbol (e.g., AAPL for Apple, GOOGL for Google)")
      else
        match df with
        | None =>
            draw (st_error ("No data available for " +:+ symbol
                              +:+ ". Please check the symbol and try again."))
        | Some frame =>
            if Pandas.empty frame
            then
              draw (st_error ("No data available for " +:+ symbol
                                +:+ ". Please check the symbol and try again."))
            else
              draw (st_success ("✅ Successfully loaded data for " +:+ symbol));;
              display_stock_info quote_data df;;
              draw (st_subheader ("📊 " +:+ symbol +:+ " - 7-Day Price Chart"));;
              chart ← lift (create_price_chart frame symbol);
              draw (st_plotly_chart chart);;
              table ← lift (display_table frame);
              draw (st_dataframe table);;
              instructions symbol
        end
  else instructions symbol.

(** ** Sample data *)

Module Sample.

Definition record (date open high low close volume : string) : gmap string pyval :=
  {[ "datetime" := PStr date; "open" := PStr open; "high" := PStr high;
     "low" := PStr low; "close" := PStr close; "volume" := PStr volume ]}.

(** Nine daily bars, newest first, as the provider sends them. *)
Definition nine_days : list (gmap string pyval) :=
  [ record "2024-01-12" "150.00" "152.00" "149.50" "150.25" "1000000";
    record "2024-01-11" "151.00" "153.00" "150.00" "151.75" "1100000";
    record "2024-01-10" "152.00" "155.00" "151.00" "152.50" "1200000";
    record "2024-01-09" "150.50" "152.50" "149.00" "151.00" "900000";
    record "2024-01-08" "149.00" "151.00" "148.00" "150.50" "950000";
    record "2024-01-05" "150.00" "151.50" "148.50" "149.25" "1050000";
    record "2024-01-04" "151.00" "152.00" "149.75" "150.10" "980000";
    record "2024-01-03" "153.00" "158.00" "150.50" "151.20" "1500000";
    record "2024-01-02" "154.00" "156.00" "146.00" "153.10" "1300000" ].

(** Two bars with fields that do not read as numbers. *)
Definition gappy_days : list (gmap string pyval) :=
  [ record "2024-01-12" "150.00" "N/A" "" "150.25" "1,000,000";
    {[ "datetime" := PStr "2024-01-11"; "open" := PNone; "close" := PStr "151.75" ]} ].

Definition series_data (records : list (gmap string pyval)) : gmap string pyval :=
  {[ "meta" := PDict {[ "symbol" := PStr "AAPL" ]};
     "values" := PList (PDict <$> records);
     "status" := PStr "ok" ]}.

Definition series_body : pyval := PDict (series_data nine_days).

(** The quote of the specification's example, and one for a day on which
    the price did not move. *)
Definition quote : gmap string pyval :=
  {[ "close" := PNum 150.25; "change" := PNum (-1.50);
     "percent_change" := PNum (-0.99) ]}.

Definition flat_quote : gmap string pyval :=
  {[ "close" := PNum 150.25; "change" := PNum 0; "percent_change" := PNum 0 ]}.

Definition quote_body : pyval := PDict quote.


(** A frame of two bars whose highest high is 155.00 and lowest low 148.00. *)
Definition frame : Pandas.DataFrame :=
  {| Pandas.columns :=
       list_to_set ["datetime"; "open"; "high"; "low"; "close"; "volume"];
     Pandas.rows :=
       [ {| Pandas.bar_datetime := Some 738896%Z;
            Pandas.bar_open := Some 149.00%Q; Pandas.bar_high := Some 151.00%Q;
            Pandas.bar_low := Some 148.00%Q; Pandas.bar_close := Some 150.50%Q;
            Pandas.bar_volume := Some 950000%Q |};
         {| Pandas.bar_datetime := Some 738897%Z;
            Pandas.bar_open := Some 152.00%Q; Pandas.bar_high := Some 155.00%Q;
            Pandas.bar_low := Some 151.00%Q; Pandas.bar_close := Some 152.50%Q;
            Pandas.bar_volume := Some 1200000%Q |} ] |}.

Definition ok (body : pyval) : Reply :=
  Responds {| status_code := 200; reason := "OK"; json_body := Some body |}.

Definition is_quote (r : Request) : bool :=
  String.eqb (url r) (BASE_URL +:+ "/quote").

(** A provider that answers both endpoints. *)
Definition env (series quote : Reply) : Env :=
  {| clock := Calendar.ymd2ord 2024 1 12;
     environ := ∅;
     provider := λ r, if is_quote r then quote else series |}.

End Sample.

(** ** Derived forms

    The request each fetch function sends, and what each makes of the
    reply, separated from the bookkeeping of the monad.  They are proved
    equal to the functions above in Part II and serve the proofs only. *)

Definition series_request (symbol : string) (env : Env) : Request :=
  {| url := "https://api.twelvedata.com/time_series";
     params :=
       {[ "symbol" := Py.upper symbol;
          "interval" := "1day";
          "start_date" := Calendar.strftime_ymd (clock env - 10);
          "end_date" := Calendar.strftime_ymd (clock env);
          "apikey" := API_KEY env;
          "format" := "JSON" ]};
     timeout := 10 |}.

Definition quote_request (symbol : string) (env : Env) : Request :=
  {| url := "https://api.twelvedata.com/quote";
     params := {[ "symbol" := Py.upper symbol; "apikey" := API_KEY env ]};
     timeout := 10 |}.

(** [response.raise_for_status()] followed by [response.json()]. *)
Definition body_of (reply : Reply) : outcome pyval :=
  match reply with
  | NoResponse msg => Raise (RequestException msg)
  | Responds r => requests.raise_for_status r;; requests.json r
  end.

(** The test [if "status" in data and data["status"] == "error"]. *)
Definition signals_error (data : pyval) : outcome bool :=
  has_status ← Py.py_in "status" data;
  if has_status : bool
  then status ← Py.getitem data "status"; mret (Py.eq_str status "error")
  else mret false.

(** The test [if "values" not in data or not data["values"]]. *)
Definition lacks_values (data : pyval) : outcome bool :=
  has_values ← Py.py_in "values" data;
  if negb has_values
  then mret true
  else values ← Py.getitem data "values"; mret (negb (Py.truthy values)).

(** Lines 59 to 75 on the list under ["values"]. *)
Definition normalize (values : pyval) : outcome Pandas.DataFrame :=
  raw ← Pandas.DataFrame_of values;
  df ← convert_columns raw;
  mret (Pandas.tail 7 (Pandas.sort_values_datetime df)).

(** Lines 52 to 75 on the decoded body. *)
Definition read_series (symbol : string) (data : pyval)
    : outcome (option Pandas.DataFrame * pyval) :=
  is_error ← signals_error data;
  if is_error : bool
  then
    message ← Py.get data "message" (PStr "API returned an error");
    mret (None, message)
  else
    no_values ← lacks_values data;
    if no_values : bool
    then
      mret (None, PStr ("No data found for symbol " +:+ symbol
                          +:+ ". Please check if the symbol is valid."))
    else
      values ← Py.getitem data "values";
      df ← normalize values;
      mret (Some df, PNone).

(** The two [except] clauses of [fetch_stock_data]. *)
Definition series_handlers (o : outcome (option Pandas.DataFrame * pyval))
    : option Pandas.DataFrame * pyval :=
  match o with
  | Ret result => result
  | Raise (RequestException msg) => (None, PStr ("Network error: " +:+ msg))
  | Raise (Exception msg) => (None, PStr ("Error processing data: " +:+ msg))
  end.

Definition series_result (symbol : string) (reply : Reply)
    : option Pandas.DataFrame * pyval :=
  series_handlers (data ← body_of reply; read_series symbol data).

(** Lines 98 to 104 on the reply to the quote request. *)
Definition quote_result (reply : Reply) : pyval :=
  match (data ← body_of reply;
         is_error ← signals_error data;
         mret (if is_error : bool then PNone else data)) with
  | Ret quote => quote
  | Raise _ => PNone
  end.

(** A record of the payload whose ["datetime"] field reads as a date, and
    the bar it becomes: the date as parsed, each of the five numeric fields
    as [pd.to_numeric] coerces it. *)
Definition record_day (record : gmap string pyval) : option Z :=
  match record !! "datetime" with
  | Some (PStr s) => Calendar.parse_ymd s
  | _ => None
  end.

Definition decode (record : gmap string pyval) (day : Z) : Pandas.Bar :=
  {| Pandas.bar_datetime := Some day;
     Pandas.bar_open := Pandas.to_numeric (record !! "open");
     Pandas.bar_high := Pandas.to_numeric (record !! "high");
     Pandas.bar_low := Pandas.to_numeric (record !! "low");
     Pandas.bar_close := Pandas.to_numeric (record !! "close");
     Pandas.bar_volume := Pandas.to_numeric (record !! "volume") |}.


(** The two shapes of result [fetch_stock_data] is meant to have: a frame
    and no error, or no frame and an error that is neither [None] nor
    empty. *)
Definition exactly_one (result : option Pandas.DataFrame * pyval) : Prop :=
  (is_Some result.1 ∧ result.2 = PNone)
  ∨ (result.1 = None ∧ Py.truthy result.2 = true).

(** A reply that is an explicit API error whose ["message"] field is
    present and falsy ([null], empty text, zero, an empty container). *)
Definition silent_api_error (reply : Reply) : bool :=
  match body_of reply with
  | Ret (PDict d) =>
      match d !! "status", d !! "message" with
      | Some status, Some message =>
          Py.eq_str status "error" && negb (Py.truthy message)
      | _, _ => false
      end
  | _ => false
  end.

(** The three groups of metrics of [display_stock_info], each as a
    function of its own inputs: the quote's ["close"]; the quote's
    ["change"] and ["percent_change"]; the frame. *)
Definition price_widgets (quote : gmap string pyval) : outcome (list Widget) :=
  let current_price := default PNone (quote !! "close") in
  if Py.truthy current_price
  then
    price ← Py.float current_price;
    mret [st_metric "Current Price" ("$" +:+ Decimal.format_2f price) None]
  else mret [].

Definition change_widgets (quote : gmap string pyval) : outcome (list Widget) :=
  let change := default PNone (quote !! "change") in
  let percent_change := default PNone (quote !! "percent_change") in
  if Py.truthy change && Py.truthy percent_change
  then
    c ← Py.float change;
    pc ← Py.float percent_change;
    mret [st_metric "Daily Change" ("$" +:+ Decimal.format_2f c)
            (Some (Decimal.format_2f pc +:+ "%"))]
  else mret [].

Definition range_widgets (df : Pandas.DataFrame) : outcome (list Widget) :=
  if negb (Pandas.empty df)
  then
    high ← Pandas.getitem df "high";
    low ← Pandas.getitem df "low";
    mret [st_metric "7-Day High" ("$" +:+ Decimal.format_2f_nan (Pandas.max high)) None;
          st_metric "7-Day Low" ("$" +:+ Decimal.format_2f_nan (Pandas.min low)) None]
  else mret [].

(** The ways a quote request fails: no response, a status that
    [raise_for_status] rejects, a body that is not JSON, a body that
    signals an explicit error status. *)
Inductive quote_fails : Reply → Prop :=
| fails_no_response msg :
    quote_fails (NoResponse msg)
| fails_http_error r :
    (400 ≤ status_code r < 600)%Z → quote_fails (Responds r)
| fails_not_json r :
    json_body r = None → quote_fails (Responds r)
| fails_api_error r d :
    json_body r = Some (PDict d) → d !! "status" = Some (PStr "error") →
    quote_fails (Responds r).

(** The widgets of the instructions block. *)
Definition instruction_widgets : list Widget :=
  [ st_info "👆 Enter a stock symbol above to get started";
    st_markdown "### 💡 Popular Stock Symbols";
    st_markdown "**Technology:** AAPL (Apple), GOOGL (Google), MSFT (Microsoft), TSLA (Tesla)";
    st_markdown "**Finance:** JPM (JPMorgan), BAC (Bank of America), WFC (Wells Fargo), GS (Goldman Sachs)";
    st_markdown "**Other:** AMZN (Amazon), NFLX (Netflix), NVDA (NVIDIA), META (Meta)" ].

(** The last steps of [ord2ymd]: month and day from the zero-based day of
    the year. *)
Definition month_day (leapyear : bool) (n : Z) : Z * Z :=
  let month := Z.shiftr (n + 50) 5 in
  let preceding :=
    (Calendar.DAYS_BEFORE_MONTH month + (if (2 <? month)%Z && leapyear then 1 else 0))%Z in
  if (n <? preceding)%Z then
    let month := (month - 1)%Z in
    let preceding :=
      (preceding - (Calendar.DAYS_IN_MONTH month
                    + (if (month =? 2)%Z && leapyear then 1 else 0)))%Z in
    (month, n - preceding + 1)%Z
  else (month, n - preceding + 1)%Z.

Definition month_day_ok (leapyear : bool) (n : Z) : bool :=
  let '(m, d) := month_day leapyear n in
  ((1 <=? m) && (m <=? 12) && (1 <=? d)
   && (d <=? (if (m =? 2) && leapyear then 29 else Calendar.DAYS_IN_MONTH m))
   && (Calendar.DAYS_BEFORE_MONTH m + (if (2 <? m) && leapyear then 1 else 0) + d
       =? n + 1))%Z.

(** A date of the calendar. *)
Definition valid_date (y m d : Z) : Prop :=
  (1 ≤ y)%Z ∧ (1 ≤ m ≤ 12)%Z ∧ (1 ≤ d ≤ Calendar.days_in_month y m)%Z.

Definition sent (request : Request) (w : World) : World :=
  {| calls := calls w ++ [request]; page := page w |}.

Definition drawn (widgets : list Widget) (w : World) : World :=
  {| calls := calls w; page := page w ++ widgets |}.

(** ** Further derived forms *)

(** The bar a record of the payload becomes, its date read from the record
    itself. *)
Definition bar_of (record : gmap string pyval) : Pandas.Bar :=
  decode record (default 0%Z (record_day record)).

(** The six columns the page reads. *)
Definition page_columns : list string :=
  ["datetime"; "open"; "high"; "low"; "close"; "volume"].

(** Dates whose year has four digits. *)
Definition four_digit_year (day : Z) : Prop := (364878 ≤ day ≤ 3652059)%Z.

(** Lines 195 to 228 of [main]: what is drawn once both fetches have
    returned, followed by the instructions block the code falls through
    to. *)
Definition render (symbol : string) (df : option Pandas.DataFrame)
    (error quote_data : pyval) : Run unit :=
  if Py.truthy error
  then
    draw (st_error ("❌ " +:+ Py.str error));;
    draw (st_info "💡 **Tip**: Make sure you're using a valid stock symbol (e.g., AAPL for Apple, GOOGL for Google)")
  else
    match df with
    | None =>
        draw (st_error ("No data available for " +:+ symbol
                          +:+ ". Please check the symbol and try again."))
    | Some frame =>
        if Pandas.empty frame
        then
          draw (st_error ("No data available for " +:+ symbol
                            +:+ ". Please check the symbol and try again."))
        else
          draw (st_success ("✅ Successfully loaded data for " +:+ symbol));;
          display_stock_info quote_data df;;
          draw (st_subheader ("📊 " +:+ symbol +:+ " - 7-Day Price Chart"));;
          chart ← lift (create_price_chart frame symbol);
          draw (st_plotly_chart chart);;
          table ← lift (display_table frame);
          draw (st_dataframe table);;
          instructions symbol
    end.

(** A symbol that passes the checks of [main]. *)
Definition accepted (symbol : string) : Prop :=
  symbol ≠ "" ∧ 1 ≤ String.length (Py.upper (Py.strip symbol)) ≤ 10.

(** A payload whose only record has no ["volume"] field. *)
Definition no_volume : list (gmap string pyval) :=
  [ {[ "datetime" := PStr "2024-01-12"; "open" := PStr "150.00";
       "high" := PStr "152.00"; "low" := PStr "149.50"; "close" := PStr "150.25" ]} ].

(** ** Classes of text and of numbers *)

(** A lowercase letter of ASCII. *)
Definition lowercase_letter (c : ascii) : bool :=
  let n := N_of_ascii c in ((97 <=? n) && (n <=? 122))%N.


(** Punctuation that occurs in no numeric literal, whichever reader is
    asked ([float], [pd.to_numeric]): the printable ASCII characters that
    are no letter, no digit, no blank and none of [+ - . _]. *)
Definition stray (c : ascii) : bool :=
  let n := N_of_ascii c in
  (((33 <=? n) && (n <=? 42)) || (n =? 44) || (n =? 47)
   || ((58 <=? n) && (n <=? 64)) || ((91 <=? n) && (n <=? 94)) || (n =? 96)
   || ((123 <=? n) && (n <=? 126)))%N.

(** Text that no reader takes for a number: blank, or with a stray
    character in it ("", "N/A", "1,000,000"). *)
Definition unreadable (s : string) : bool :=
  String.eqb (Py.strip s) "" || negb (Py.all_chars (λ c, negb (stray c)) s).

(** The literal made of the [w] digits of [whole], then, unless [f] is 0,
    the point and the [f] digits of [frac]; and the number it denotes. *)
Definition decimal_text (w : nat) (whole : Z) (f : nat) (frac : Z) : string :=
  Calendar.zero_padded w whole
    +:+ match f with O => "" | S _ => "." +:+ Calendar.zero_padded f frac end.

Definition decimal_value (whole : Z) (f : nat) (frac : Z) : Q :=
  inject_Z whole + Qmake frac (Z.to_pos (10 ^ Z.of_nat f)).

(** A number that [:.2f] prints alike whether it is taken exactly or as
    the float nearest to it: at most five decimals, not zero (a float has
    a negative zero), below a thousand million, and not halfway between two
    cents. *)
Definition cent_stable (x : Q) : bool :=
  Qeq_bool (inject_Z (Qfloor (x * 100000))) (x * 100000)
  && negb (Qeq_bool x 0)
  && negb (Qle_bool 1000000000 (Qabs x))
  && negb (Qeq_bool (Qabs x * 100 - inject_Z (Qfloor (Qabs x * 100))) (1 # 2)).

(** A quote field that is falsy, or reads as such a number. *)
Definition plain_amount (v : pyval) : bool :=
  negb (Py.truthy v)
  || match Py.float v with
     | Ret x => cent_stable x
     | Raise _ => false
     end.

(* ===================================================================== *)
(** * Part II: properties                                                 *)
(* ===================================================================== *)

(** ** The fetch functions, unfolded *)

Lemma fetch_stock_data_run symbol env w :
  fetch_stock_data symbol env w =
    (Ret (series_result symbol (provider env (series_request symbol env))),
     sent (series_request symbol env) w).
Proof.
  unfold fetch_stock_data, try_except, series_result, read_series, body_of,
    signals_error, lacks_values, normalize.
  unfold mbind, run_bind, outcome_bind, mret, run_ret, outcome_ret, lift,
    datetime.now, config, requests.get, sent.
  change (BASE_URL +:+ "/time_series") with "https://api.twelvedata.com/time_series".
  fold (series_request symbol env).
  destruct (provider env (series_request symbol env)) as [msg|r]; [reflexivity|].
  destruct (requests.raise_for_status r) as [[]|[]]; [|reflexivity..].
  destruct (requests.json r) as [data|[]]; [|reflexivity..].
  destruct (Py.py_in "status" data) as [[]|[]]; [| |reflexivity..].
  - destruct (Py.getitem data "status") as [status|[]]; [|reflexivity..].
    destruct (Py.eq_str status "error").
    + destruct (Py.get data "message" _) as [?|[]]; reflexivity.
    + destruct (Py.py_in "values" data) as [[]|[]]; [| |reflexivity..]; simpl.
      * destruct (Py.getitem data "values") as [values|[]]; [|reflexivity..].
        destruct (Py.truthy values); simpl; [|reflexivity].
        destruct (Pandas.DataFrame_of values) as [raw|[]]; [|reflexivity..].
        destruct (convert_columns raw) as [df|[]]; reflexivity.
      * reflexivity.
  - destruct (Py.py_in "values" data) as [[]|[]]; [| |reflexivity..]; simpl.
    + destruct (Py.getitem data "values") as [values|[]]; [|reflexivity..].
      destruct (Py.truthy values); simpl; [|reflexivity].
      destruct (Pandas.DataFrame_of values) as [raw|[]]; [|reflexivity..].
      destruct (convert_columns raw) as [df|[]]; reflexivity.
    + reflexivity.
Qed.

Lemma fetch_current_quote_run symbol env w :
  fetch_current_quote symbol env w =
    (Ret (quote_result (provider env (quote_request symbol env))),
     sent (quote_request symbol env) w).
Proof.
  unfold fetch_current_quote, try_except, quote_result, body_of, signals_error.
  unfold mbind, run_bind, outcome_bind, mret, run_ret, outcome_ret, lift,
    config, requests.get, sent.
  change (BASE_URL +:+ "/quote") with "https://api.twelvedata.com/quote".
  fold (quote_request symbol env).
  destruct (provider env (quote_request symbol env)) as [msg|r]; [reflexivity|].
  destruct (requests.raise_for_status r) as [[]|[]]; [|reflexivity..].
  destruct (requests.json r) as [data|[]]; [|reflexivity..].
  destruct (Py.py_in "status" data) as [[]|[]]; [| |reflexivity..].
  - destruct (Py.getitem data "status") as [status|[]]; [|reflexivity..].
    destruct (Py.eq_str status "error"); reflexivity.
  - reflexivity.
Qed.

(** ** Sorting and truncation *)

#[global] Instance datetime_le_total : Total Pandas.datetime_le.
Proof.
  intros a b. unfold Pandas.datetime_le.
  destruct (Pandas.bar_datetime a), (Pandas.bar_datetime b); auto; lia.
Qed.

#[global] Instance datetime_le_trans : Transitive Pandas.datetime_le.
Proof.
  intros a b c. unfold Pandas.datetime_le.
  destruct (Pandas.bar_datetime a), (Pandas.bar_datetime b),
    (Pandas.bar_datetime c); auto; try lia; tauto.
Qed.

Lemma tail_rows n df :
  Pandas.rows (Pandas.tail n df) = drop (length (Pandas.rows df) - n) (Pandas.rows df).
Proof. reflexivity. Qed.

Lemma sorted_tail_rows n df :
  let sorted := Pandas.rows (Pandas.sort_values_datetime df) in
  let kept := Pandas.rows (Pandas.tail n (Pandas.sort_values_datetime df)) in
  let older := take (length sorted - n) sorted in
  StronglySorted Pandas.datetime_le kept
  ∧ older ++ kept ≡ₚ Pandas.rows df
  ∧ length kept = Nat.min n (length (Pandas.rows df))
  ∧ (∀ o k, o ∈ older → k ∈ kept → Pandas.datetime_le o k).
Proof.
  intros sorted kept older. subst kept older. rewrite tail_rows. fold sorted.
  assert (Hs : StronglySorted Pandas.datetime_le sorted)
    by (apply StronglySorted_merge_sort; apply _).
  assert (Hp : sorted ≡ₚ Pandas.rows df) by apply merge_sort_Permutation.
  rewrite <- (take_drop (length sorted - n) sorted) in Hs.
  apply StronglySorted_app in Hs as (Hle & _ & Hk).
  repeat split; [done | by rewrite take_drop | | done].
  rewrite length_drop, <- (Permutation_length Hp). lia.
Qed.

(** ** Normalisation of a row-oriented payload *)

Lemma mapM_as_record records :
  mapM Pandas.as_record (PDict <$> records) = Some records.
Proof.
  apply mapM_Some. induction records; by constructor.
Qed.

Lemma DataFrame_of_records records :
  Pandas.DataFrame_of (PList (PDict <$> records)) =
    Ret {| Pandas.raw_columns := ⋃ (dom <$> records); Pandas.raw_rows := records |}.
Proof. unfold Pandas.DataFrame_of. by rewrite mapM_as_record. Qed.

Lemma record_day_to_datetime record day :
  record_day record = Some day →
  Pandas.to_datetime (record !! "datetime") = Ret (Some day).
Proof.
  unfold record_day, Pandas.to_datetime.
  destruct (record !! "datetime") as [[]|]; try done.
  by intros ->.
Qed.

Lemma mapM_to_datetime (records : list (gmap string pyval)) (days : list Z) :
  mapM record_day records = Some days →
  mapM (λ record : gmap string pyval, Pandas.to_datetime (record !! "datetime")) records
    = Ret (Some <$> days).
Proof.
  rewrite mapM_Some. induction 1 as [|record day records days Hday _ IH]; [done|].
  cbn in *. by rewrite (record_day_to_datetime _ _ Hday), IH.
Qed.

Lemma record_day_has_datetime record day :
  record_day record = Some day → "datetime" ∈ dom record.
Proof.
  unfold record_day. intros H. apply elem_of_dom.
  destruct (record !! "datetime"); [eauto|done].
Qed.

Lemma convert_numeric_in_frame records col record :
  record ∈ records →
  convert_numeric
    {| Pandas.raw_columns := ⋃ (dom <$> records); Pandas.raw_rows := records |}
    col record
  = Pandas.to_numeric (record !! col).
Proof.
  intros Hin. unfold convert_numeric. simpl. case_bool_decide as Hcol; [done|].
  destruct (record !! col) as [v|] eqn:Hv; [|done].
  exfalso. apply Hcol. apply elem_of_union_list.
  exists (dom record). split.
  - apply list_elem_of_fmap. eauto.
  - apply elem_of_dom. eauto.
Qed.

Lemma zip_with_decode frame (rs : list (gmap string pyval)) (days : list Z) :
  Forall (λ record, ∀ col, convert_numeric frame col record
                           = Pandas.to_numeric (record !! col)) rs →
  length rs = length days →
  zip_with (λ stamp record,
      {| Pandas.bar_datetime := stamp;
         Pandas.bar_open := convert_numeric frame "open" record;
         Pandas.bar_high := convert_numeric frame "high" record;
         Pandas.bar_low := convert_numeric frame "low" record;
         Pandas.bar_close := convert_numeric frame "close" record;
         Pandas.bar_volume := convert_numeric frame "volume" record |})
    (Some <$> days) rs
  = zip_with decode rs days.
Proof.
  intros Hall. revert days.
  induction Hall as [|record rs Hrec _ IH]; intros [|day days] Hlen; try done.
  simpl. f_equal; [|apply IH; by injection Hlen].
  unfold decode. by rewrite !Hrec.
Qed.

Lemma convert_columns_records (records : list (gmap string pyval)) (days : list Z) :
  records ≠ [] →
  mapM record_day records = Some days →
  convert_columns
    {| Pandas.raw_columns := ⋃ (dom <$> records); Pandas.raw_rows := records |}
  = Ret {| Pandas.columns := ⋃ (dom <$> records);
           Pandas.rows := zip_with decode records days |}.
Proof.
  intros Hne Hdays. unfold convert_columns. simpl.
  rewrite bool_decide_eq_true_2.
  2:{ destruct records as [|record records]; [done|].
      apply mapM_Some in Hdays. inversion Hdays as [|? day ? ? Hday]; subst.
      simpl. apply elem_of_union. left. by eapply record_day_has_datetime. }
  rewrite (mapM_to_datetime _ _ Hdays). simpl. do 2 f_equal.
  apply zip_with_decode.
  - apply Forall_forall. intros record Hin col.
    by apply convert_numeric_in_frame.
  - apply mapM_Some in Hdays. by eapply Forall2_length.
Qed.

Lemma normalize_records (records : list (gmap string pyval)) (days : list Z) :
  records ≠ [] →
  mapM record_day records = Some days →
  normalize (PList (PDict <$> records)) =
    Ret (Pandas.tail 7 (Pandas.sort_values_datetime
           {| Pandas.columns := ⋃ (dom <$> records);
              Pandas.rows := zip_with decode records days |})).
Proof.
  intros Hne Hdays. unfold normalize.
  rewrite DataFrame_of_records. simpl.
  by rewrite (convert_columns_records _ _ Hne Hdays).
Qed.

(** ** Reading a JSON object *)

Lemma eq_str_true v s : Py.eq_str v s = true ↔ v = PStr s.
Proof.
  destruct v; simpl; try (split; [done|discriminate]).
  rewrite String.eqb_eq. split; [by intros ->|by intros [= ->]].
Qed.

Lemma signals_error_dict d :
  signals_error (PDict d) =
    Ret (match d !! "status" with Some v => Py.eq_str v "error" | None => false end).
Proof.
  unfold signals_error, Py.py_in, Py.getitem.
  by destruct (d !! "status").
Qed.

Lemma signals_error_dict_true d :
  d !! "status" = Some (PStr "error") → signals_error (PDict d) = Ret true.
Proof. intros H. by rewrite signals_error_dict, H. Qed.

Lemma signals_error_dict_false d :
  d !! "status" ≠ Some (PStr "error") → signals_error (PDict d) = Ret false.
Proof.
  intros H. rewrite signals_error_dict.
  destruct (d !! "status") as [v|]; [|done].
  destruct (Py.eq_str v "error") eqn:Heq; [|done].
  apply eq_str_true in Heq as ->. done.
Qed.

Lemma lacks_values_dict d :
  lacks_values (PDict d) =
    Ret (match d !! "values" with Some v => negb (Py.truthy v) | None => true end).
Proof.
  unfold lacks_values, Py.py_in, Py.getitem.
  by destruct (d !! "values").
Qed.

Lemma body_of_ok r data :
  requests.raise_for_status r = Ret () →
  json_body r = Some data →
  body_of (Responds r) = Ret data.
Proof.
  intros Hstatus Hbody. unfold body_of, requests.json.
  rewrite Hstatus, Hbody. done.
Qed.

Lemma series_result_ok symbol r data :
  requests.raise_for_status r = Ret () →
  json_body r = Some data →
  series_result symbol (Responds r) = series_handlers (read_series symbol data).
Proof.
  intros Hstatus Hbody. unfold series_result.
  by rewrite (body_of_ok _ _ Hstatus Hbody).
Qed.

Lemma read_series_records symbol d (records : list (gmap string pyval)) (days : list Z) :
  d !! "status" ≠ Some (PStr "error") →
  d !! "values" = Some (PList (PDict <$> records)) →
  records ≠ [] →
  mapM record_day records = Some days →
  read_series symbol (PDict d) =
    Ret (Some (Pandas.tail 7 (Pandas.sort_values_datetime
                 {| Pandas.columns := ⋃ (dom <$> records);
                    Pandas.rows := zip_with decode records days |})),
         PNone).
Proof.
  intros Hok Hvalues Hne Hdays. unfold read_series.
  rewrite (signals_error_dict_false _ Hok). cbn [mbind outcome_bind].
  rewrite lacks_values_dict, Hvalues.
  assert (Py.truthy (PList (PDict <$> records)) = true) as ->
    by (by destruct records).
  cbn [mbind outcome_bind negb Py.getitem]. rewrite Hvalues.
  cbn [mbind outcome_bind].
  by rewrite (normalize_records records days Hne Hdays).
Qed.

Lemma elem_of_zip_with_decode (records : list (gmap string pyval)) (days : list Z) bar :
  mapM record_day records = Some days →
  bar ∈ zip_with decode records days →
  ∃ record day,
    record ∈ records ∧ record_day record = Some day ∧ bar = decode record day.
Proof.
  rewrite mapM_Some. induction 1 as [|record day records days Hday _ IH]; simpl.
  - by intros ?%elem_of_nil.
  - intros [->|Hin]%elem_of_cons.
    + exists record, day. split_and!; [left|done..].
    + destruct (IH Hin) as (record' & day' & ? & ? & ?).
      exists record', day'. split_and!; [by right|done..].
Qed.

Lemma sorted_days (bars : list Pandas.Bar) :
  Forall (λ bar, is_Some (Pandas.bar_datetime bar)) bars →
  StronglySorted Pandas.datetime_le bars →
  ∃ days, Pandas.bar_datetime <$> bars = Some <$> days ∧ StronglySorted Z.le days.
Proof.
  induction 1 as [|bar bars [day Hday] Hall IH]; intros Hsorted.
  - exists []. split; [done|constructor].
  - apply StronglySorted_inv in Hsorted as [Hsorted Hle].
    destruct (IH Hsorted) as (days & Heq & Hdays).
    exists (day :: days). split; [csimpl; by rewrite Hday, Heq|].
    constructor; [done|].
    apply Forall_forall. intros day' Hin.
    assert (Hin' : Some day' ∈ Pandas.bar_datetime <$> bars)
      by (rewrite Heq; by apply list_elem_of_fmap_2).
    apply list_elem_of_fmap in Hin' as (bar' & Hbar' & Hin').
    rewrite Forall_forall in Hle. specialize (Hle bar' Hin').
    unfold Pandas.datetime_le in Hle. by rewrite Hday, <- Hbar' in Hle.
Qed.

(** ** C1: the series is sorted and holds the seven most recent bars *)

(** C1. For a well-formed provider response (status accepted, a JSON object
    without an error status whose ["values"] is a non-empty array of
    records with parseable dates) [fetch_stock_data] returns a frame and no
    error; the frame's rows are in ascending order of date, none without a
    date, and at most 7; the rows left out are no more recent than any row
    kept, and rows kept and rows left out together are the decoded records
    of the payload; for 9 records exactly 7 are kept and 2 left out. *)
Theorem C1_sorted_seven_most_recent symbol env w r d
    (records : list (gmap string pyval)) (days : list Z) :
  provider env (series_request symbol env) = Responds r →
  requests.raise_for_status r = Ret () →
  json_body r = Some (PDict d) →
  d !! "status" ≠ Some (PStr "error") →
  d !! "values" = Some (PList (PDict <$> records)) →
  records ≠ [] →
  mapM record_day records = Some days →
  ∃ df older kept_days,
    (fetch_stock_data symbol env w).1 = Ret (Some df, PNone)
    ∧ Pandas.bar_datetime <$> Pandas.rows df = Some <$> kept_days
    ∧ StronglySorted Z.le kept_days
    ∧ length (Pandas.rows df) ≤ 7
    ∧ older ++ Pandas.rows df ≡ₚ zip_with decode records days
    ∧ (∀ o k, o ∈ older → k ∈ Pandas.rows df → Pandas.datetime_le o k)
    ∧ (length records = 9 → length (Pandas.rows df) = 7 ∧ length older = 2).
Proof.
  intros Hreply Hstatus Hbody Hok Hvalues Hne Hdays.
  rewrite fetch_stock_data_run, Hreply. cbn [fst].
  rewrite (series_result_ok _ _ _ Hstatus Hbody).
  rewrite (read_series_records _ _ _ _ Hok Hvalues Hne Hdays).
  cbn [series_handlers].
  set (frame := {| Pandas.columns := _; Pandas.rows := _ |}).
  destruct (sorted_tail_rows 7 frame) as (Hsorted & Hperm & Hlen & Hle).
  set (kept := Pandas.rows (Pandas.tail 7 (Pandas.sort_values_datetime frame))) in *.
  set (older := take _ _) in *.
  assert (Hdated : Forall (λ bar, is_Some (Pandas.bar_datetime bar)) kept).
  { apply Forall_forall. intros bar Hin.
    assert (Hin' : bar ∈ zip_with decode records days).
    { change (zip_with decode records days) with (Pandas.rows frame).
      rewrite <- Hperm. apply elem_of_app. by right. }
    destruct (elem_of_zip_with_decode _ _ _ Hdays Hin') as (? & day & _ & _ & ->).
    by exists day. }
  destruct (sorted_days kept Hdated Hsorted) as (kept_days & Hkept & Hasc).
  exists (Pandas.tail 7 (Pandas.sort_values_datetime frame)), older, kept_days.
  fold kept. split_and!; try done.
  - rewrite Hlen. lia.
  - intros Hnine.
    assert (Hrows : length (Pandas.rows frame) = 9).
    { unfold frame. simpl. rewrite length_zip_with.
      apply mapM_Some, Forall2_length in Hdays. lia. }
    split; [rewrite Hlen; lia|].
    apply Permutation_length in Hperm. rewrite length_app in Hperm. lia.
Qed.

Lemma C1_witness :
  ∃ df older kept_days,
    (fetch_stock_data "AAPL"
       (Sample.env (Sample.ok Sample.series_body) (NoResponse "timed out"))
       initial).1 = Ret (Some df, PNone)
    ∧ Pandas.bar_datetime <$> Pandas.rows df = Some <$> kept_days
    ∧ StronglySorted Z.le kept_days
    ∧ length (Pandas.rows df) ≤ 7
    ∧ older ++ Pandas.rows df ≡ₚ
        zip_with decode Sample.nine_days
          [738897; 738896; 738895; 738894; 738893; 738890; 738889; 738888; 738887]%Z
    ∧ (∀ o k, o ∈ older → k ∈ Pandas.rows df → Pandas.datetime_le o k)
    ∧ (length Sample.nine_days = 9 → length (Pandas.rows df) = 7 ∧ length older = 2).
Proof.
  apply (C1_sorted_seven_most_recent "AAPL" _ initial
           {| status_code := 200; reason := "OK";
              json_body := Some Sample.series_body |}
           (Sample.series_data Sample.nine_days) Sample.nine_days).
  - reflexivity.
  - reflexivity.
  - reflexivity.
  - vm_compute. discriminate.
  - vm_compute. reflexivity.
  - discriminate.
  - vm_compute. reflexivity.
Defined.

Example nine_days_kept :
  (λ result, (λ df, Calendar.strftime_ymd <$> omap Pandas.bar_datetime (Pandas.rows df))
               <$> result.1)
    (series_result "AAPL" (Sample.ok Sample.series_body))
  = Some ["2024-01-04"; "2024-01-05"; "2024-01-08"; "2024-01-09";
          "2024-01-10"; "2024-01-11"; "2024-01-12"].
Proof. vm_compute. reflexivity. Qed.

(** ** Text: case, blanks, numerals *)

Lemma append_cons c s r : String c s +:+ r = String c (s +:+ r).
Proof. reflexivity. Qed.

Lemma append_nil_l s : "" +:+ s = s.
Proof. reflexivity. Qed.

Lemma append_nil_r s : s +:+ "" = s.
Proof. induction s as [|c s IH]; [done|]. by rewrite append_cons, IH. Qed.

Lemma digit_of_digit_char d :
  Decimal.digit_of (Calendar.digit_char d) = Some (Z.to_N (d mod 10)).
Proof.
  unfold Decimal.digit_of, Calendar.digit_char.
  assert (Hd : (Z.to_N (d mod 10) < 10)%N).
  { pose proof (Z.mod_pos_bound d 10 ltac:(lia)). lia. }
  rewrite N_ascii_embedding by lia.
  destruct (_ <=? _)%N eqn:H1, (_ <=? 57)%N eqn:H2; simpl;
    rewrite ?N.leb_le, ?N.leb_gt in *; try lia.
  f_equal. lia.
Qed.

Lemma upper_ascii_idempotent c : Py.upper_ascii (Py.upper_ascii c) = Py.upper_ascii c.
Proof. by destruct c as [[] [] [] [] [] [] [] []]. Qed.

Lemma upper_idempotent s : Py.upper (Py.upper s) = Py.upper s.
Proof.
  induction s as [|c s IH]; [done|]. simpl. by rewrite upper_ascii_idempotent, IH.
Qed.

Lemma upper_length s : String.length (Py.upper s) = String.length s.
Proof. induction s as [|c s IH]; simpl; congruence. Qed.

Lemma upper_no_lowercase s :
  Py.all_chars (λ c, negb (lowercase_letter c)) (Py.upper s) = true.
Proof.
  induction s as [|c s IH]; [done|]. cbn [Py.upper Py.all_chars].
  rewrite IH, andb_true_r. by destruct c as [[] [] [] [] [] [] [] []].
Qed.

Lemma lower_upper s : Py.lower (Py.upper s) = Py.lower s.
Proof.
  induction s as [|c s IH]; [done|]. cbn [Py.upper Py.lower].
  rewrite IH. f_equal. by destruct c as [[] [] [] [] [] [] [] []].
Qed.

(** ** Reversal *)






(** ** Stripping *)





(** ** Reading decimal text *)
















(** ** C8: unparsable numeric fields become missing cells *)




(** The fields of the sample payload are of these kinds: "150.25" is the
    literal of 150 and 25 hundredths, "N/A", "" and "1,000,000" are
    unreadable. *)
Example sample_fields :
  decimal_text 3 150 2 25 = "150.25"
  ∧ decimal_value 150 2 25 == 601 # 4
  ∧ decimal_text 7 1000000 0 0 = "1000000"
  ∧ unreadable "N/A" = true ∧ unreadable "" = true
  ∧ unreadable "1,000,000" = true ∧ unreadable "150.25" = false.
Proof. vm_compute. by split_and!. Qed.

Example gappy_days_kept :
  (λ result, Pandas.rows <$> result.1)
    (series_result "AAPL" (Sample.ok (PDict (Sample.series_data Sample.gappy_days))))
  = Some [ {| Pandas.bar_datetime := Some 738896%Z;
              Pandas.bar_open := None; Pandas.bar_high := None;
              Pandas.bar_low := None; Pandas.bar_close := Some (607 # 4)%Q;
              Pandas.bar_volume := None |};
           {| Pandas.bar_datetime := Some 738897%Z;
              Pandas.bar_open := Some (150 # 1)%Q; Pandas.bar_high := None;
              Pandas.bar_low := None; Pandas.bar_close := Some (601 # 4)%Q;
              Pandas.bar_volume := None |} ].
Proof. vm_compute. reflexivity. Qed.

(** ** C4 and C5: the two error outcomes read off the body *)

Lemma prefix_app s t : String.prefix s (s +:+ t) = true.
Proof.
  induction s as [|c s IH]; simpl; [by destruct t|].
  by destruct (ascii_dec c c).
Qed.

Lemma contains_prefix sub s : String.prefix sub s = true → Py.contains sub s = true.
Proof. intros H. destruct s; cbn [Py.contains]; by rewrite H. Qed.

Lemma contains_app before sub after :
  Py.contains sub (before +:+ sub +:+ after) = true.
Proof.
  induction before as [|c before IH].
  - apply contains_prefix. exact (prefix_app sub after).
  - change (Py.contains sub (String c (before +:+ sub +:+ after)) = true).
    cbn [Py.contains]. rewrite IH. apply orb_true_r.
Qed.

(** C4. For a response that carries no error status and whose ["values"]
    is absent or an empty array, [fetch_stock_data] returns no frame and
    the message "No data found for symbol <symbol>. Please check if the
    symbol is valid.", in which the requested symbol occurs. *)
Theorem C4_no_data_names_symbol symbol env w r d :
  provider env (series_request symbol env) = Responds r →
  requests.raise_for_status r = Ret () →
  json_body r = Some (PDict d) →
  d !! "status" ≠ Some (PStr "error") →
  d !! "values" = None ∨ d !! "values" = Some (PList []) →
  ∃ message,
    (fetch_stock_data symbol env w).1 = Ret (None, PStr message)
    ∧ message = "No data found for symbol " +:+ symbol
                  +:+ ". Please check if the symbol is valid."
    ∧ Py.contains symbol message = true.
Proof.
  intros Hreply Hstatus Hbody Hok Hvalues.
  eexists. split; [|split; [reflexivity|apply contains_app]].
  rewrite fetch_stock_data_run, Hreply. cbn [fst].
  rewrite (series_result_ok _ _ _ Hstatus Hbody). unfold read_series.
  rewrite (signals_error_dict_false _ Hok). cbn [mbind outcome_bind].
  rewrite lacks_values_dict.
  by destruct Hvalues as [-> | ->].
Qed.

Lemma C4_witness :
  ∃ message,
    (fetch_stock_data "ZZZZ"
       (Sample.env (Sample.ok (PDict (Sample.series_data [])))
          (NoResponse "timed out"))
       initial).1 = Ret (None, PStr message)
    ∧ message = "No data found for symbol ZZZZ. Please check if the symbol is valid."
    ∧ Py.contains "ZZZZ" message = true.
Proof.
  apply (C4_no_data_names_symbol "ZZZZ" _ initial
           {| status_code := 200; reason := "OK";
              json_body := Some (PDict (Sample.series_data [])) |}
           (Sample.series_data [])).
  - reflexivity.
  - reflexivity.
  - reflexivity.
  - vm_compute. discriminate.
  - right. vm_compute. reflexivity.
Defined.

Lemma read_series_api_error symbol d :
  d !! "status" = Some (PStr "error") →
  read_series symbol (PDict d) =
    Ret (None, default (PStr "API returned an error") (d !! "message")).
Proof.
  intros Herr. unfold read_series.
  by rewrite (signals_error_dict_true _ Herr).
Qed.

(** C5, as the code has it.  For a response whose body signals an
    explicit error status, [fetch_stock_data] returns no frame and, as its
    error, whatever the body holds under ["message"], unchanged: a message
    that is text is returned as that text, the provider's own; a message
    that is no text (a [null], say) is returned as it is, so that the
    result then carries no error message; and when the body has no
    ["message"] the error is the fixed text "API returned an error". *)
Theorem C5_api_error_message symbol env w r d :
  provider env (series_request symbol env) = Responds r →
  requests.raise_for_status r = Ret () →
  json_body r = Some (PDict d) →
  d !! "status" = Some (PStr "error") →
  (fetch_stock_data symbol env w).1 =
    Ret (None, default (PStr "API returned an error") (d !! "message"))
  ∧ (∀ message, d !! "message" = Some (PStr message) →
       (fetch_stock_data symbol env w).1 = Ret (None, PStr message))
  ∧ (∀ value, d !! "message" = Some value →
       (fetch_stock_data symbol env w).1 = Ret (None, value))
  ∧ (d !! "message" = None →
       (fetch_stock_data symbol env w).1 = Ret (None, PStr "API returned an error")).
Proof.
  intros Hreply Hstatus Hbody Herr.
  rewrite fetch_stock_data_run, Hreply. cbn [fst].
  rewrite (series_result_ok _ _ _ Hstatus Hbody).
  rewrite (read_series_api_error _ _ Herr).
  split_and!; [done|by intros message ->|by intros value ->|by intros ->].
Qed.

Lemma C5_witness :
  (fetch_stock_data "AAPL"
     (Sample.env
        (Sample.ok (PDict {[ "code" := PNum 429; "status" := PStr "error";
                             "message" := PStr "You have run out of API credits." ]}))
        (NoResponse "timed out"))
     initial).1
  = Ret (None, PStr "You have run out of API credits.").
Proof.
  apply (C5_api_error_message "AAPL" _ initial
           {| status_code := 200; reason := "OK";
              json_body :=
                Some (PDict {[ "code" := PNum 429; "status" := PStr "error";
                               "message" := PStr "You have run out of API credits." ]}) |}
           {[ "code" := PNum 429; "status" := PStr "error";
              "message" := PStr "You have run out of API credits." ]}).
  - reflexivity.
  - reflexivity.
  - reflexivity.
  - vm_compute. reflexivity.
  - vm_compute. reflexivity.
Defined.

(** The claim as stated fails when the provider's message is no text: an
    error response with [null] under ["message"] gives no error message. *)
Lemma C5_counterexample :
  ¬ (∀ symbol env w r d,
       provider env (series_request symbol env) = Responds r →
       requests.raise_for_status r = Ret () →
       json_body r = Some (PDict d) →
       d !! "status" = Some (PStr "error") →
       ∃ message, (fetch_stock_data symbol env w).1 = Ret (None, PStr message)).
Proof.
  intros H.
  destruct (H "AAPL"
              (Sample.env
                 (Sample.ok (PDict {[ "status" := PStr "error"; "message" := PNone ]}))
                 (NoResponse "timed out"))
              initial
              {| status_code := 200; reason := "OK";
                 json_body :=
                   Some (PDict {[ "status" := PStr "error"; "message" := PNone ]}) |}
              {[ "status" := PStr "error"; "message" := PNone ]})
    as [message Hmessage]; [reflexivity..|].
  rewrite fetch_stock_data_run in Hmessage. vm_compute in Hmessage.
  discriminate Hmessage.
Qed.

Example error_without_message :
  (fetch_stock_data "AAPL"
     (Sample.env (Sample.ok (PDict {[ "status" := PStr "error" ]}))
        (NoResponse "timed out"))
     initial).1
  = Ret (None, PStr "API returned an error").
Proof. rewrite fetch_stock_data_run. vm_compute. reflexivity. Qed.

(** ** C9: the shape of the result pair *)

Lemma truthy_text prefix rest :
  prefix ≠ "" → Py.truthy (PStr (prefix +:+ rest)) = true.
Proof. destruct prefix; [done|]. reflexivity. Qed.

Lemma series_handlers_raise e :
  exactly_one (series_handlers (Raise e)).
Proof. right. destruct e; split; reflexivity. Qed.

Lemma signals_error_true_dict data :
  signals_error data = Ret true →
  ∃ d status, data = PDict d ∧ d !! "status" = Some status
              ∧ Py.eq_str status "error" = true.
Proof.
  unfold signals_error. destruct data as [ |b|q|s|l|d]; try done.
  - simpl. by destruct (Py.contains _ s).
  - simpl. by destruct (existsb _ l).
  - fold (signals_error (PDict d)). rewrite signals_error_dict.
    destruct (d !! "status") as [status|] eqn:Hstatus; [|done].
    intros [= Heq]. by exists d, status.
Qed.

(** Whatever the provider does, [read_series] followed by the handlers
    yields a pair of one of the two shapes, unless the body is an API error
    with a falsy message. *)
Lemma series_result_shape symbol reply :
  silent_api_error reply = false →
  exactly_one (series_result symbol reply).
Proof.
  unfold series_result, silent_api_error.
  destruct (body_of reply) as [data|e]; [|intros _; apply series_handlers_raise].
  cbn [mbind outcome_bind]. unfold read_series.
  destruct (signals_error data) as [[]|e] eqn:Herr;
    [| |intros _; apply series_handlers_raise].
  - apply signals_error_true_dict in Herr as (d & status & -> & Hstatus & Heq).
    rewrite Hstatus, Heq. cbn [mbind outcome_bind Py.get series_handlers].
    destruct (d !! "message") as [message|]; cbn [default andb].
    + intros Htruthy. right. split; [done|]. by apply negb_false_iff.
    + intros _. by right.
  - intros _. cbn [mbind outcome_bind].
    destruct (lacks_values data) as [[]|e]; [| |apply series_handlers_raise].
    + right. split; [done|]. by apply truthy_text.
    + cbn [mbind outcome_bind].
      destruct (Py.getitem data "values") as [values|e];
        [|apply series_handlers_raise].
      cbn [mbind outcome_bind].
      destruct (normalize values) as [df|e]; [|apply series_handlers_raise].
      left. split; [by eexists|done].
Qed.

(** C9, as the code has it.  [fetch_stock_data] returns normally for every
    symbol and every provider behaviour, and never returns both a frame and
    an error.  Unless the response is an explicit API error whose
    ["message"] field is present and falsy, exactly one component is set: a
    frame with no error, or no frame with an error that is neither [None]
    nor empty. *)
Theorem C9_returns_one_of_two_shapes symbol env w :
  ∃ result,
    (fetch_stock_data symbol env w).1 = Ret result
    ∧ (result.1 = None ∨ result.2 = PNone)
    ∧ (silent_api_error (provider env (series_request symbol env)) = false →
       exactly_one result).
Proof.
  rewrite fetch_stock_data_run. eexists. split; [reflexivity|]. split.
  - unfold series_result.
    destruct (body_of _) as [data|[]]; [|by left..].
    cbn [mbind outcome_bind]. unfold read_series.
    destruct (signals_error data) as [[]|[]]; [| |by left..].
    + cbn [mbind outcome_bind]. destruct (Py.get _ _ _) as [?|[]]; by left.
    + cbn [mbind outcome_bind].
      destruct (lacks_values data) as [[]|[]]; [by left| |by left..].
      cbn [mbind outcome_bind].
      destruct (Py.getitem data "values") as [values|[]]; [|by left..].
      cbn [mbind outcome_bind].
      destruct (normalize values) as [df|[]]; [by right|by left..].
  - apply series_result_shape.
Qed.

Lemma C9_witness :
  ∃ result,
    (fetch_stock_data "AAPL"
       (Sample.env (NoResponse "Connection refused") (NoResponse "timed out"))
       initial).1 = Ret result
    ∧ exactly_one result.
Proof.
  destruct (C9_returns_one_of_two_shapes "AAPL"
              (Sample.env (NoResponse "Connection refused") (NoResponse "timed out"))
              initial) as (result & Hrun & _ & Hshape).
  exists result. split; [exact Hrun|]. apply Hshape. reflexivity.
Defined.

(** The claim as stated fails when the provider reports an error and its
    message is [null]: the result is the pair [(None, None)]. *)
Lemma C9_counterexample :
  ∃ result,
    (fetch_stock_data "AAPL"
       (Sample.env
          (Sample.ok (PDict {[ "status" := PStr "error"; "message" := PNone ]}))
          (NoResponse "timed out"))
       initial).1 = Ret result
    ∧ result = (None, PNone)
    ∧ ¬ exactly_one result.
Proof.
  eexists. split; [|split]; [vm_compute; reflexivity|reflexivity|].
  intros [[[? [=]] _]|[_ [=]]].
Qed.

(** ** C10: quote fields are tested by truthiness *)

Lemma falsy_values :
  Py.truthy (PNum 0) = false ∧ Py.truthy (PStr "") = false
  ∧ Py.truthy PNone = false ∧ Py.truthy (PNum (0 # 5)) = false.
Proof. done. Qed.

(** [display_stock_info] with a non-empty quote object draws the three
    groups one after the other and stops at the first exception. *)
Lemma display_stock_info_dict q df env w :
  q ≠ ∅ →
  display_stock_info (PDict q) (Some df) env w =
    match price_widgets q with
    | Raise e => (Raise e, w)
    | Ret p =>
        match change_widgets q with
        | Raise e => (Raise e, drawn p w)
        | Ret c =>
            match range_widgets df with
            | Raise e => (Raise e, drawn (p ++ c) w)
            | Ret g => (Ret (), drawn (p ++ c ++ g) w)
            end
        end
    end.
Proof.
  intros Hq.
  unfold display_stock_info, price_widgets, change_widgets, range_widgets, drawn.
  cbn [Py.truthy]. rewrite bool_decide_eq_false_2 by done. cbn [negb].
  unfold mbind, run_bind, outcome_bind, mret, run_ret, outcome_ret, lift, draw.
  cbn [Py.get]. destruct w as [cs pg]. cbn [calls page].
  repeat (case_match; simplify_eq/=);
    rewrite ?app_nil_r, <- ?app_assoc; try reflexivity.
Qed.

Lemma display_stock_info_absent quote_data df env w :
  Py.truthy quote_data = false ∨ df = None →
  display_stock_info quote_data df env w = (Ret (), w).
Proof.
  unfold display_stock_info. intros [Hq| ->]; [|done].
  destruct df; [|done]. by rewrite Hq.
Qed.

(** The slices draw metrics under their own labels only, and only when
    their inputs are truthy. *)
Lemma price_widgets_inv q p x :
  price_widgets q = Ret p → x ∈ p →
  Py.truthy (default PNone (q !! "close")) = true
  ∧ ∃ value, x = st_metric "Current Price" value None.
Proof.
  unfold price_widgets. destruct (Py.truthy _); [|by intros [= <-] ?%elem_of_nil].
  destruct (Py.float _) as [price|]; [|done]. intros [= <-] ->%list_elem_of_singleton.
  eauto.
Qed.

Lemma change_widgets_inv q c x :
  change_widgets q = Ret c → x ∈ c →
  Py.truthy (default PNone (q !! "change")) = true
  ∧ Py.truthy (default PNone (q !! "percent_change")) = true
  ∧ ∃ value delta, x = st_metric "Daily Change" value delta.
Proof.
  unfold change_widgets.
  destruct (Py.truthy (default PNone (q !! "change")));
    [|by intros [= <-] ?%elem_of_nil].
  destruct (Py.truthy (default PNone (q !! "percent_change")));
    [|by intros [= <-] ?%elem_of_nil].
  cbn [andb mbind outcome_bind].
  destruct (Py.float (default PNone (q !! "change"))) as [ch|];
    cbn [mbind outcome_bind]; [|done].
  destruct (Py.float _) as [pc|]; cbn [mbind outcome_bind]; [|done].
  intros [= <-] ->%list_elem_of_singleton. eauto.
Qed.

Lemma range_widgets_inv df g x :
  range_widgets df = Ret g → x ∈ g →
  ∃ value, x = st_metric "7-Day High" value None
           ∨ x = st_metric "7-Day Low" value None.
Proof.
  unfold range_widgets. destruct (negb _); [|by intros [= <-] ?%elem_of_nil].
  destruct (Pandas.getitem df "high") as [high|]; cbn [mbind outcome_bind]; [|done].
  destruct (Pandas.getitem df "low") as [low|]; cbn [mbind outcome_bind]; [|done].
  intros [= <-]. rewrite elem_of_cons, list_elem_of_singleton.
  intros [-> | ->]; eauto.
Qed.

(** C10. [display_stock_info] tests the quote's fields by truthiness: when
    ["close"] is falsy (0, empty, [None] or absent) no Current Price metric
    is drawn, and when ["change"] or ["percent_change"] is falsy, a zero
    change included, no Daily Change metric is drawn. *)
Theorem C10_fields_tested_by_truthiness q df env w :
  ∃ widgets,
    (display_stock_info (PDict q) (Some df) env w).2 = drawn widgets w
    ∧ (Py.truthy (default PNone (q !! "close")) = false →
       ∀ value delta, st_metric "Current Price" value delta ∉ widgets)
    ∧ (Py.truthy (default PNone (q !! "change")) = false
       ∨ Py.truthy (default PNone (q !! "percent_change")) = false →
       ∀ value delta, st_metric "Daily Change" value delta ∉ widgets).
Proof.
  destruct (decide (q = ∅)) as [->|Hq].
  { exists []. split; [|split; intros _ ? ? ?%elem_of_nil; done].
    rewrite display_stock_info_absent by (by left).
    unfold drawn. destruct w. simpl. by rewrite app_nil_r. }
  rewrite (display_stock_info_dict _ _ _ _ Hq).
  assert (Hprice : ∀ p, price_widgets q = Ret p →
            Py.truthy (default PNone (q !! "close")) = false →
            ∀ value delta, st_metric "Current Price" value delta ∉ p).
  { intros p Hp Hfalse value delta Hin.
    destruct (price_widgets_inv _ _ _ Hp Hin) as [Htrue _]. congruence. }
  assert (Hprice' : ∀ p, price_widgets q = Ret p →
            ∀ value delta, st_metric "Daily Change" value delta ∉ p).
  { intros p Hp value delta Hin.
    destruct (price_widgets_inv _ _ _ Hp Hin) as (_ & ? & [=]). }
  assert (Hchange : ∀ c, change_widgets q = Ret c →
            Py.truthy (default PNone (q !! "change")) = false
            ∨ Py.truthy (default PNone (q !! "percent_change")) = false →
            ∀ value delta, st_metric "Daily Change" value delta ∉ c).
  { intros c Hc Hfalse value delta Hin.
    destruct (change_widgets_inv _ _ _ Hc Hin) as (? & ? & _).
    destruct Hfalse; congruence. }
  assert (Hchange' : ∀ c, change_widgets q = Ret c →
            ∀ value delta, st_metric "Current Price" value delta ∉ c).
  { intros c Hc value delta Hin.
    destruct (change_widgets_inv _ _ _ Hc Hin) as (_ & _ & ? & ? & [=]). }
  assert (Hrange : ∀ g label value delta, range_widgets df = Ret g →
            label = "Current Price" ∨ label = "Daily Change" →
            st_metric label value delta ∉ g).
  { intros g label value delta Hg Hlabel Hin.
    destruct (range_widgets_inv _ _ _ Hg Hin) as (? & [[=]|[=]]);
      destruct Hlabel; congruence. }
  destruct (price_widgets q) as [p|e] eqn:Hp.
  2:{ exists []. split; [|split; intros _ ? ? ?%elem_of_nil; done].
      unfold drawn. destruct w. simpl. by rewrite app_nil_r. }
  destruct (change_widgets q) as [c|e] eqn:Hc.
  2:{ exists p. split; [done|]. split; [by apply Hprice|intros _; by apply Hprice']. }
  destruct (range_widgets df) as [g|e] eqn:Hg.
  - exists (p ++ c ++ g). split; [done|].
    split; intros Hfalse value delta; rewrite !elem_of_app; intros [?|[?|?]].
    + by eapply (Hprice p eq_refl).
    + by eapply (Hchange' c eq_refl).
    + eapply (Hrange g _ _ _ eq_refl); [by left|done].
    + by eapply (Hprice' p eq_refl).
    + by eapply (Hchange c eq_refl).
    + eapply (Hrange g _ _ _ eq_refl); [by right|done].
  - exists (p ++ c). split; [done|].
    split; intros Hfalse value delta; rewrite !elem_of_app; intros [?|?].
    + by eapply (Hprice p eq_refl).
    + by eapply (Hchange' c eq_refl).
    + by eapply (Hprice' p eq_refl).
    + by eapply (Hchange c eq_refl).
Qed.

Lemma C10_witness :
  ∃ widgets,
    (display_stock_info (PDict Sample.flat_quote) (Some Sample.frame)
       (Sample.env (NoResponse "") (NoResponse "")) initial).2
    = drawn widgets initial
    ∧ ∀ value delta, st_metric "Daily Change" value delta ∉ widgets.
Proof.
  destruct (C10_fields_tested_by_truthiness Sample.flat_quote Sample.frame
              (Sample.env (NoResponse "") (NoResponse "")) initial)
    as (widgets & Hrun & _ & Hchange).
  exists widgets. split; [exact Hrun|]. apply Hchange. left. reflexivity.
Defined.

Example flat_quote_page :
  page (display_stock_info (PDict Sample.flat_quote) (Some Sample.frame)
          (Sample.env (NoResponse "") (NoResponse "")) initial).2
  = [ st_metric "Current Price" "$150.25" None;
      st_metric "7-Day High" "$155.00" None;
      st_metric "7-Day Low" "$148.00" None ].
Proof. vm_compute. reflexivity. Qed.

(** The test is on the Python value: a zero sent as text is a non-empty
    string, hence truthy, and is displayed. *)
Example zero_as_text_is_displayed :
  page (display_stock_info
          (PDict {[ "close" := PStr "150.25"; "change" := PStr "0.00";
                    "percent_change" := PStr "0.00" ]})
          (Some Sample.frame)
          (Sample.env (NoResponse "") (NoResponse "")) initial).2
  = [ st_metric "Current Price" "$150.25" None;
      st_metric "Daily Change" "$0.00" (Some "0.00%");
      st_metric "7-Day High" "$155.00" None;
      st_metric "7-Day Low" "$148.00" None ].
Proof. vm_compute. reflexivity. Qed.

(** ** C2: the derived statistics *)

Section Pick.
Variable le : Q → Q → Prop.
Variable better : Q → Q → bool.
Hypothesis le_refl : ∀ x, le x x.
Hypothesis le_trans : ∀ x y z, le x y → le y z → le x z.
Hypothesis better_le : ∀ c a, if better c a then le a c else le c a.

End Pick.











(** The quote of the specification's example, its fields numbers. *)
Example quote_page :
  display_stock_info (PDict Sample.quote) (Some Sample.frame)
    (Sample.env (NoResponse "") (NoResponse "")) initial
  = (Ret (),
     drawn [ st_metric "Current Price" "$150.25" None;
             st_metric "Daily Change" "$-1.50" (Some "-0.99%");
             st_metric "7-Day High" "$155.00" None;
             st_metric "7-Day Low" "$148.00" None ] initial).
Proof. vm_compute. reflexivity. Qed.

(** A close halfway between two cents is no plain amount: the float
    nearest to 150.135 lies below it. *)
Example tie_is_not_plain :
  plain_amount (PStr "150.135") = false
  ∧ plain_amount (PStr "150.25000") = true
  ∧ plain_amount (PNum (-0.99)) = true
  ∧ plain_amount PNone = true.
Proof. vm_compute. by split_and!. Qed.


(** ** C6: symbols that fail validation *)

Lemma run_bind_unfold {A B} (m : Run A) (f : A → Run B) env w :
  (m ≫= f) env w =
    match m env w with
    | (Ret a, w') => f a env w'
    | (Raise e, w') => (Raise e, w')
    end.
Proof. reflexivity. Qed.

Lemma draw_run x env w : draw x env w = (Ret (), drawn [x] w).
Proof. reflexivity. Qed.

Lemma drawn_drawn xs ys w : drawn ys (drawn xs w) = drawn (xs ++ ys) w.
Proof. unfold drawn. simpl. by rewrite app_assoc. Qed.

Lemma drawn_nil w : drawn [] w = w.
Proof. unfold drawn. destruct w. simpl. by rewrite app_nil_r. Qed.

Lemma truthy_symbol symbol : Py.truthy (PStr symbol) = negb (String.eqb symbol "").
Proof. reflexivity. Qed.

Lemma truthy_nonempty symbol : symbol ≠ "" → Py.truthy (PStr symbol) = true.
Proof.
  intros H. rewrite truthy_symbol. apply negb_true_iff, String.eqb_neq, H.
Qed.

Lemma instructions_empty env w :
  instructions "" env w = (Ret (), drawn instruction_widgets w).
Proof.
  unfold instructions. cbn [Py.truthy String.eqb negb].
  rewrite !run_bind_unfold, !draw_run. cbn iota.
  rewrite !run_bind_unfold, !draw_run. cbn iota.
  rewrite !run_bind_unfold, !draw_run. cbn iota.
  rewrite !run_bind_unfold, !draw_run. cbn iota.
  by rewrite !drawn_drawn.
Qed.

Lemma instructions_nonempty symbol env w :
  symbol ≠ "" → instructions symbol env w = (Ret (), w).
Proof. intros H. unfold instructions. by rewrite (truthy_nonempty _ H). Qed.

(** C6, as the code has it.  For an ASCII input whose stripped,
    uppercased form has length 0 or more than 10, [main] makes no network
    call.  When the input itself is not empty the page gets the validation
    error and nothing else; when the input is empty no lookup is started
    at all and the page gets the instructions, without any error. *)
Theorem C6_invalid_symbol_makes_no_call symbol search_button env w :
  Py.isascii symbol = true →
  String.length (Py.upper (Py.strip symbol)) = 0
  ∨ 10 < String.length (Py.upper (Py.strip symbol)) →
  ∃ widgets,
    main symbol search_button env w = (Ret (), drawn widgets w)
    ∧ calls (main symbol search_button env w).2 = calls w
    ∧ (symbol ≠ "" →
       widgets = [st_error "Please enter a valid stock symbol (1-10 characters)"])
    ∧ (symbol = "" → widgets = instruction_widgets).
Proof.
  intros _ Hlen. destruct (decide (symbol = "")) as [->|Hne].
  - exists instruction_widgets. unfold main.
    cbn [Py.truthy String.eqb negb andb]. rewrite instructions_empty.
    by split_and!.
  - exists [st_error "Please enter a valid stock symbol (1-10 characters)"].
    unfold main. rewrite (truthy_nonempty _ Hne), orb_true_r. cbn [andb].
    assert (((String.length (Py.upper (Py.strip symbol)) <? 1)
             || (10 <? String.length (Py.upper (Py.strip symbol)))) = true) as ->.
    { apply orb_true_iff. destruct Hlen as [H0|H10].
      - left. apply Nat.ltb_lt. lia.
      - right. by apply Nat.ltb_lt. }
    rewrite draw_run. by split_and!.
Qed.

Lemma C6_witness :
  ∃ widgets,
    main "   " true (Sample.env (Sample.ok Sample.series_body) (Sample.ok Sample.quote_body))
      initial = (Ret (), drawn widgets initial)
    ∧ calls (main "   " true
               (Sample.env (Sample.ok Sample.series_body) (Sample.ok Sample.quote_body))
               initial).2 = []
    ∧ widgets = [st_error "Please enter a valid stock symbol (1-10 characters)"].
Proof.
  destruct (C6_invalid_symbol_makes_no_call "   " true
              (Sample.env (Sample.ok Sample.series_body) (Sample.ok Sample.quote_body))
              initial) as (widgets & Hrun & Hcalls & Herror & _).
  - reflexivity.
  - left. reflexivity.
  - exists widgets. split; [exact Hrun|]. split; [exact Hcalls|].
    apply Herror. discriminate.
Defined.

Example long_symbol_rejected :
  main "berkshirehathaway" false
    (Sample.env (Sample.ok Sample.series_body) (Sample.ok Sample.quote_body)) initial
  = (Ret (),
     {| calls := [];
        page := [st_error "Please enter a valid stock symbol (1-10 characters)"] |}).
Proof. vm_compute. reflexivity. Qed.

(** The claim as stated fails on the empty input: pressing the button with
    nothing typed draws the instructions and no validation error. *)
Lemma C6_counterexample :
  ¬ (∀ symbol search_button env w,
       String.length (Py.upper (Py.strip symbol)) = 0
       ∨ 10 < String.length (Py.upper (Py.strip symbol)) →
       ∃ body, st_error body ∈ page (main symbol search_button env w).2).
Proof.
  intros H.
  destruct (H "" true (Sample.env (NoResponse "") (NoResponse "")) initial)
    as [body Hin]; [by left|].
  vm_compute in Hin.
  repeat (apply elem_of_cons in Hin as [[=]|Hin]). by apply elem_of_nil in Hin.
Qed.

(** ** C3: a failed quote request is not fatal *)

Lemma quote_fails_none reply : quote_fails reply → quote_result reply = PNone.
Proof.
  unfold quote_result, body_of.
  destruct 1 as [msg|r Hcode|r Hbody|r d Hbody Herr]; [done|..].
  - unfold requests.raise_for_status.
    destruct ((400 <=? status_code r) && (status_code r <? 500))%Z eqn:H4; [done|].
    destruct ((500 <=? status_code r) && (status_code r <? 600))%Z eqn:H5; [done|].
    apply andb_false_iff in H4, H5. lia.
  - destruct (requests.raise_for_status r) as [[]|]; [|done].
    unfold requests.json. by rewrite Hbody.
  - destruct (requests.raise_for_status r) as [[]|]; [|done].
    unfold requests.json. rewrite Hbody. cbn [mbind outcome_bind].
    by rewrite (signals_error_dict_true _ Herr).
Qed.

Lemma display_table_ok df :
  Forall (λ col, col ∈ Pandas.columns df)
    ["datetime"; "open"; "high"; "low"; "close"; "volume"] →
  ∃ table, display_table df = Ret table ∧ length table = length (Pandas.rows df).
Proof.
  rewrite !Forall_cons. intros (? & ? & ? & ? & ? & ? & _).
  unfold display_table, Pandas.getitem, Pandas.getitem_datetime.
  rewrite !bool_decide_eq_true_2 by done.
  eexists. split; [reflexivity|]. by rewrite length_fmap.
Qed.

Lemma create_price_chart_ok df symbol :
  Forall (λ col, col ∈ Pandas.columns df)
    ["datetime"; "open"; "high"; "low"; "close"; "volume"] →
  create_price_chart df symbol =
    Ret {| trace_x := Pandas.bar_datetime <$> Pandas.rows df;
           trace_open := Pandas.bar_open <$> Pandas.rows df;
           trace_high := Pandas.bar_high <$> Pandas.rows df;
           trace_low := Pandas.bar_low <$> Pandas.rows df;
           trace_close := Pandas.bar_close <$> Pandas.rows df;
           trace_name := Py.upper symbol +:+ " Price";
           layout_title := Py.upper symbol +:+ " - 7-Day Price Chart" |}.
Proof.
  rewrite !Forall_cons. intros (? & ? & ? & ? & ? & ? & _).
  unfold create_price_chart, Pandas.getitem, Pandas.getitem_datetime.
  by rewrite !bool_decide_eq_true_2 by done.
Qed.

(** C3, as the code has it.  When the quote request fails (no response, a
    4xx or 5xx status, a body that is not JSON, or a body with an explicit
    error status) [fetch_current_quote] returns [None] and raises nothing;
    and when the series request of the same lookup gave a non-empty frame
    with the columns the page reads, [main] ends normally having made both
    requests and drawn the success line, the chart and the table of that
    frame, with no quote metric.  (The input is taken to be ASCII, where
    the stripping, uppercasing and length of the model are Python's.) *)
Theorem C3_quote_failure_is_not_fatal symbol search_button env w df :
  let ticker := Py.upper (Py.strip symbol) in
  Py.isascii symbol = true →
  symbol ≠ "" →
  1 ≤ String.length ticker ≤ 10 →
  quote_fails (provider env (quote_request ticker env)) →
  (fetch_stock_data ticker env w).1 = Ret (Some df, PNone) →
  Pandas.rows df ≠ [] →
  Forall (λ col, col ∈ Pandas.columns df)
    ["datetime"; "open"; "high"; "low"; "close"; "volume"] →
  (∀ w', (fetch_current_quote ticker env w').1 = Ret PNone)
  ∧ ∃ chart table,
      create_price_chart df ticker = Ret chart
      ∧ display_table df = Ret table
      ∧ main symbol search_button env w =
          (Ret (),
           {| calls := calls w ++ [series_request ticker env; quote_request ticker env];
              page := page w ++
                [ st_spinner ("Fetching data for " +:+ ticker +:+ "...");
                  st_success ("✅ Successfully loaded data for " +:+ ticker);
                  st_subheader ("📊 " +:+ ticker +:+ " - 7-Day Price Chart");
                  st_plotly_chart chart;
                  st_dataframe table ] |}).
Proof.
  intros ticker _ Hne Hlen Hfails Hseries Hrows Hcols.
  rewrite fetch_stock_data_run in Hseries. cbn [fst] in Hseries.
  injection Hseries as Hseries.
  split.
  { intros w'. rewrite fetch_current_quote_run. cbn [fst].
    by rewrite (quote_fails_none _ Hfails). }
  destruct (display_table_ok df Hcols) as (table & Htable & _).
  eexists _, table. split; [apply create_price_chart_ok, Hcols|].
  split; [done|].
  unfold main. rewrite (truthy_nonempty _ Hne), orb_true_r. cbn [andb].
  fold ticker.
  assert (((String.length ticker <? 1) || (10 <? String.length ticker)) = false) as ->.
  { apply orb_false_iff. split; apply Nat.ltb_ge; lia. }
  assert (Hticker : ticker ≠ "").
  { intros Heq. rewrite Heq in Hlen. simpl in Hlen. lia. }
  rewrite run_bind_unfold, draw_run.
  rewrite run_bind_unfold, fetch_stock_data_run, Hseries.
  rewrite run_bind_unfold, fetch_current_quote_run, (quote_fails_none _ Hfails).
  cbn [Py.truthy]. unfold Pandas.empty.
  destruct (Pandas.rows df) as [|bar bars] eqn:Hr; [done|].
  rewrite run_bind_unfold, draw_run.
  rewrite run_bind_unfold, display_stock_info_absent by (by left).
  rewrite run_bind_unfold, draw_run.
  rewrite run_bind_unfold. unfold lift at 1.
  rewrite (create_price_chart_ok _ _ Hcols).
  rewrite run_bind_unfold, draw_run.
  rewrite run_bind_unfold. unfold lift at 1. rewrite Htable.
  rewrite run_bind_unfold, draw_run.
  rewrite (instructions_nonempty _ _ _ Hticker).
  unfold drawn, sent. cbn [calls page]. rewrite Hr.
  by rewrite <- !app_assoc.
Qed.

Lemma C3_witness :
  (fetch_current_quote "AAPL"
     (Sample.env (Sample.ok Sample.series_body) (NoResponse "Read timed out."))
     initial).1 = Ret PNone
  ∧ ∃ chart table,
      main " aapl " false
        (Sample.env (Sample.ok Sample.series_body) (NoResponse "Read timed out."))
        initial
      = (Ret (),
         {| calls :=
              [ series_request "AAPL"
                  (Sample.env (Sample.ok Sample.series_body) (NoResponse "Read timed out."));
                quote_request "AAPL"
                  (Sample.env (Sample.ok Sample.series_body) (NoResponse "Read timed out.")) ];
            page :=
              [ st_spinner "Fetching data for AAPL...";
                st_success "✅ Successfully loaded data for AAPL";
                st_subheader "📊 AAPL - 7-Day Price Chart";
                st_plotly_chart chart;
                st_dataframe table ] |}).
Proof.
  edestruct (C3_quote_failure_is_not_fatal " aapl " false
               (Sample.env (Sample.ok Sample.series_body) (NoResponse "Read timed out."))
               initial)
    as (Hquote & chart & table & _ & _ & Hmain).
  - reflexivity.
  - discriminate.
  - vm_compute. lia.
  - apply fails_no_response.
  - vm_compute. reflexivity.
  - discriminate.
  - repeat constructor; vm_compute; reflexivity.
  - split; [apply Hquote|]. exists chart, table. exact Hmain.
Defined.

(** The claim as stated fails for a response that is not 2xx and not an
    error either: a 300 with a JSON body is returned as the quote. *)
Lemma C3_counterexample :
  ¬ (∀ symbol env w r,
       provider env (quote_request symbol env) = Responds r →
       ¬ (200 ≤ status_code r < 300)%Z →
       (fetch_current_quote symbol env w).1 = Ret PNone).
Proof.
  intros H.
  specialize (H "AAPL"
                (Sample.env (Sample.ok Sample.series_body)
                   (Responds {| status_code := 300; reason := "Multiple Choices";
                                json_body := Some Sample.quote_body |}))
                initial _ eq_refl).
  rewrite fetch_current_quote_run in H. vm_compute in H.
  assert (¬ (200 ≤ 300 < 300)%Z) as Hcode by lia.
  specialize (H Hcode). discriminate H.
Qed.

(** ** C7: the time-series request *)

Lemma month_day_spec leapyear n :
  (0 ≤ n ≤ 364)%Z → month_day_ok leapyear n = true.
Proof.
  intros Hn.
  assert (Hall : forallb (λ n, month_day_ok true n && month_day_ok false n)
                   (seqZ 0 365) = true) by (vm_compute; reflexivity).
  rewrite forallb_forall in Hall.
  specialize (Hall n). rewrite <- list_elem_of_In, elem_of_seqZ in Hall.
  apply andb_true_iff in Hall as [Ht Hf]; [|lia].
  by destruct leapyear.
Qed.

Lemma days_before_year_cycles a b c e :
  (0 ≤ b ≤ 3)%Z → (0 ≤ c ≤ 24)%Z → (0 ≤ e ≤ 3)%Z →
  Calendar.days_before_year (400 * a + 100 * b + 4 * c + e + 1)
  = (146097 * a + 36524 * b + 1461 * c + 365 * e)%Z.
Proof.
  intros Hb Hc He. unfold Calendar.days_before_year.
  Z.div_mod_to_equations. lia.
Qed.

Lemma is_leap_cycles a b c e :
  (0 ≤ b ≤ 3)%Z → (0 ≤ c ≤ 24)%Z → (0 ≤ e ≤ 3)%Z →
  Calendar.is_leap (400 * a + 100 * b + 4 * c + e + 1)
  = (e =? 3)%Z && (negb (c =? 24)%Z || (b =? 3)%Z).
Proof.
  intros Hb Hc He. unfold Calendar.is_leap.
  apply eq_true_iff_eq.
  rewrite !andb_true_iff, !orb_true_iff, !negb_true_iff, !Z.eqb_eq, !Z.eqb_neq.
  Z.div_mod_to_equations. lia.
Qed.

Lemma ord2ymd_unfold n :
  Calendar.ord2ymd n =
    let n0 := (n - 1)%Z in
    let a := (n0 / 146097)%Z in
    let r0 := (n0 mod 146097)%Z in
    let b := (r0 / 36524)%Z in
    let r1 := (r0 mod 36524)%Z in
    let c := (r1 / 1461)%Z in
    let r2 := (r1 mod 1461)%Z in
    let e := (r2 / 365)%Z in
    let r3 := (r2 mod 365)%Z in
    let year := (a * 400 + 1 + b * 100 + c * 4 + e)%Z in
    if ((e =? 4) || (b =? 4))%Z then (year - 1, 12, 31)%Z
    else
      let '(m, d) := month_day ((e =? 3)%Z && (negb (c =? 24)%Z || (b =? 3)%Z)) r3 in
      (year, m, d).
Proof.
  unfold Calendar.ord2ymd, month_day, Calendar.DI400Y, Calendar.DI100Y, Calendar.DI4Y.
  cbv zeta.
  destruct ((_ =? 4) || (_ =? 4))%Z; [reflexivity|].
  destruct (_ <? _)%Z; reflexivity.
Qed.

Lemma ord2ymd_spec n :
  (1 ≤ n)%Z →
  ∃ y m d,
    Calendar.ord2ymd n = (y, m, d)
    ∧ valid_date y m d
    ∧ Calendar.ymd2ord y m d = n
    ∧ (n ≤ 3652059 → y ≤ 9999)%Z
    ∧ (365 < n → 1 < y)%Z.
Proof.
  intros Hn. rewrite ord2ymd_unfold. cbv zeta.
  set (n0 := (n - 1)%Z).
  set (a := (n0 / 146097)%Z). set (r0 := (n0 mod 146097)%Z).
  set (b := (r0 / 36524)%Z). set (r1 := (r0 mod 36524)%Z).
  set (c := (r1 / 1461)%Z). set (r2 := (r1 mod 1461)%Z).
  set (e := (r2 / 365)%Z). set (r3 := (r2 mod 365)%Z).
  assert (Hn0 : (n = n0 + 1 ∧ n0 = 146097 * a + r0 ∧ 0 ≤ r0 < 146097 ∧ 0 ≤ a)%Z)
    by (subst a r0 n0; Z.div_mod_to_equations; lia).
  assert (Hr0 : (r0 = 36524 * b + r1 ∧ 0 ≤ r1 < 36524 ∧ 0 ≤ b ≤ 4)%Z)
    by (subst b r1; Z.div_mod_to_equations; lia).
  assert (Hr1 : (r1 = 1461 * c + r2 ∧ 0 ≤ r2 < 1461 ∧ 0 ≤ c ≤ 24)%Z)
    by (subst c r2; Z.div_mod_to_equations; lia).
  assert (Hr2 : (r2 = 365 * e + r3 ∧ 0 ≤ r3 < 365 ∧ 0 ≤ e ≤ 4)%Z)
    by (subst e r3; Z.div_mod_to_equations; lia).
  clearbody a r0 b r1 c r2 e r3 n0.
  destruct ((e =? 4) || (b =? 4))%Z eqn:Hspecial.
  - (* the last day of a leap year *)
    apply orb_true_iff in Hspecial. rewrite !Z.eqb_eq in Hspecial.
    eexists _, _, _. split; [reflexivity|].
    assert (Hyear : ∃ a' b' c',
               (a * 400 + 1 + b * 100 + c * 4 + e - 1
                = 400 * a' + 100 * b' + 4 * c' + 3 + 1
                ∧ 0 ≤ b' ≤ 3 ∧ 0 ≤ c' ≤ 24 ∧ (c' ≠ 24 ∨ b' = 3)
                ∧ n = 146097 * a' + 36524 * b' + 1461 * c' + 365 * 3 + 366
                ∧ 0 ≤ a')%Z).
    { destruct (decide (b = 4%Z)) as [->|Hb].
      - exists a, 3%Z, 24%Z. lia.
      - exists a, b, c. lia. }
    destruct Hyear as (a' & b' & c' & -> & Hb' & Hc' & Hleap & -> & Ha').
    assert (Hl : Calendar.is_leap (400 * a' + 100 * b' + 4 * c' + 3 + 1) = true).
    { rewrite is_leap_cycles by lia. simpl.
      destruct Hleap as [H|H]; [apply Z.eqb_neq in H|apply Z.eqb_eq in H];
        rewrite H; by rewrite ?orb_true_r. }
    unfold valid_date, Calendar.ymd2ord, Calendar.days_in_month,
      Calendar.days_before_month.
    rewrite days_before_year_cycles, Hl by lia. simpl. lia.
  - apply orb_false_iff in Hspecial. rewrite !Z.eqb_neq in Hspecial.
    set (leapyear := (e =? 3)%Z && (negb (c =? 24)%Z || (b =? 3)%Z)).
    pose proof (month_day_spec leapyear r3 ltac:(lia)) as Hmd.
    unfold month_day_ok in Hmd.
    destruct (month_day leapyear r3) as [m d].
    rewrite !andb_true_iff, !Z.leb_le, Z.eqb_eq in Hmd.
    destruct Hmd as ((((Hm1 & Hm12) & Hd1) & Hd) & Hsum).
    eexists _, _, _. split; [reflexivity|].
    replace (a * 400 + 1 + b * 100 + c * 4 + e)%Z
      with (400 * a + 100 * b + 4 * c + e + 1)%Z by lia.
    unfold valid_date, Calendar.ymd2ord, Calendar.days_in_month,
      Calendar.days_before_month.
    rewrite days_before_year_cycles, is_leap_cycles by lia.
    fold leapyear. lia.
Qed.

Lemma fixed_digits_zero_padded width : ∀ n rest acc,
  (0 ≤ n)%Z →
  Calendar.fixed_digits width (Calendar.zero_padded width n +:+ rest) acc
  = Some ((Z.of_N acc * 10 ^ Z.of_nat width + n mod 10 ^ Z.of_nat width)%Z, rest).
Proof.
  induction width as [|width IH]; intros n rest acc Hn.
  - simpl. rewrite Z.mod_1_r. do 2 f_equal. lia.
  - cbn [Calendar.zero_padded Calendar.fixed_digits]. rewrite append_cons.
    rewrite digit_of_digit_char, IH by done. do 2 f_equal.
    rewrite Nat2Z.inj_succ, Z.pow_succ_r by lia.
    rewrite (Z.mul_comm 10), Z.rem_mul_r by lia.
    pose proof (Z.mod_pos_bound (n / 10 ^ Z.of_nat width) 10 ltac:(lia)).
    rewrite N2Z.inj_add, N2Z.inj_mul, Z2N.id by lia. simpl Z.of_N. lia.
Qed.

Lemma parse_ymd_strftime_ymd n :
  (1 ≤ n ≤ 3652059)%Z →
  Calendar.parse_ymd (Calendar.strftime_ymd n) = Some n.
Proof.
  intros Hn.
  destruct (ord2ymd_spec n ltac:(lia))
    as (y & m & d & Hymd & (Hy & Hm & Hd) & Hord & Hmax & _).
  specialize (Hmax ltac:(lia)).
  assert (Hdim : (Calendar.days_in_month y m ≤ 31)%Z).
  { unfold Calendar.days_in_month, Calendar.DAYS_IN_MONTH.
    destruct (_ && _); [lia|].
    destruct m as [|[[[|[]|]|[[]|[]|]|]|[[|[]|]|[[]|[]|]|]|]|]; lia. }
  unfold Calendar.strftime_ymd, Calendar.parse_ymd. rewrite Hymd.
  rewrite fixed_digits_zero_padded by lia. cbn [mbind option_bind].
  rewrite (append_cons "-" ""), append_nil_l.
  rewrite fixed_digits_zero_padded by lia. cbn [mbind option_bind].
  rewrite (append_cons "-" ""), append_nil_l.
  rewrite <- (append_nil_r (Calendar.zero_padded 2 d)).
  rewrite fixed_digits_zero_padded by lia. cbn [mbind option_bind].
  change (Z.of_N 0 * _)%Z with 0%Z. rewrite !Z.add_0_l.
  rewrite !Z.mod_small by (simpl; lia).
  rewrite Hord.
  repeat (rewrite (proj2 (Z.leb_le _ _)) by lia). reflexivity.
Qed.

Lemma strftime_ymd_length n : String.length (Calendar.strftime_ymd n) = 10.
Proof.
  unfold Calendar.strftime_ymd. destruct (Calendar.ord2ymd n) as [[y m] d].
  reflexivity.
Qed.

(** C7. [fetch_stock_data], given an ASCII symbol, sends exactly one
    request: a GET of [/time_series] on the provider's base URL, with a
    timeout of 10 and the parameters symbol, interval = 1day, start_date
    and end_date, apikey (the configured credential) and format = JSON.
    The symbol goes out uppercased: what is sent has the length of the
    symbol, holds no lowercase letter and equals the symbol up to case; a
    ticker that [main] has validated is already uppercase and is sent as
    it is.  For a clock whose dates have four-digit years, end_date is
    today's date and start_date the date 10 days before it, both written
    YYYY-MM-DD: each is 10 characters long and reads back as that date. *)
Theorem C7_time_series_request symbol env w :
  Py.isascii symbol = true →
  (Calendar.ymd2ord 1000 1 1 + 10 ≤ clock env ≤ Calendar.ymd2ord 9999 12 31)%Z →
  let start_date := Calendar.strftime_ymd (clock env - 10) in
  let end_date := Calendar.strftime_ymd (clock env) in
  calls (fetch_stock_data symbol env w).2 =
    calls w ++
    [ {| url := "https://api.twelvedata.com/time_series";
         params :=
           {[ "symbol" := Py.upper symbol;
              "interval" := "1day";
              "start_date" := start_date;
              "end_date" := end_date;
              "apikey" := default "demo" (environ env !! "TWELVE_DATA_API_KEY");
              "format" := "JSON" ]};
         timeout := 10 |} ]
  ∧ Calendar.parse_ymd end_date = Some (clock env)
  ∧ Calendar.parse_ymd start_date = Some (clock env - 10)%Z
  ∧ String.length start_date = 10 ∧ String.length end_date = 10
  ∧ (∀ raw, symbol = Py.upper (Py.strip raw) → Py.upper symbol = symbol)
  ∧ String.length (Py.upper symbol) = String.length symbol
  ∧ Py.all_chars (λ c, negb (lowercase_letter c)) (Py.upper symbol) = true
  ∧ Py.lower (Py.upper symbol) = Py.lower symbol.
Proof.
  intros _ Hclock start_date end_date.
  change (Calendar.ymd2ord 1000 1 1) with 364878%Z in Hclock.
  change (Calendar.ymd2ord 9999 12 31) with 3652059%Z in Hclock.
  split_and!.
  - by rewrite fetch_stock_data_run.
  - apply parse_ymd_strftime_ymd. lia.
  - apply parse_ymd_strftime_ymd. lia.
  - apply strftime_ymd_length.
  - apply strftime_ymd_length.
  - intros raw ->. apply upper_idempotent.
  - apply upper_length.
  - apply upper_no_lowercase.
  - apply lower_upper.
Qed.

Lemma C7_witness :
  calls (fetch_stock_data "aapl"
           (Sample.env (Sample.ok Sample.series_body) (Sample.ok Sample.quote_body))
           initial).2 =
    [ {| url := "https://api.twelvedata.com/time_series";
         params :=
           {[ "symbol" := "AAPL"; "interval" := "1day";
              "start_date" := "2024-01-02"; "end_date" := "2024-01-12";
              "apikey" := "demo"; "format" := "JSON" ]};
         timeout := 10 |} ]
  ∧ Calendar.parse_ymd "2024-01-12" = Some (Calendar.ymd2ord 2024 1 12)
  ∧ Calendar.parse_ymd "2024-01-02" = Some (Calendar.ymd2ord 2024 1 12 - 10)%Z.
Proof.
  destruct (C7_time_series_request "aapl"
              (Sample.env (Sample.ok Sample.series_body) (Sample.ok Sample.quote_body))
              initial) as (Hcalls & Hend & Hstart & _).
  - reflexivity.
  - vm_compute. split; discriminate.
  - split; [|split]; [exact Hcalls|exact Hend|exact Hstart].
Defined.

(** Uppercasing touches the letters a to z and nothing else. *)
Example uppercased :
  Py.upper "brk.b" = "BRK.B" ∧ Py.upper "aapl" = "AAPL" ∧ Py.upper "AAPL" = "AAPL".
Proof. vm_compute. by split_and!. Qed.

(* ===================================================================== *)
(** * Part III: further properties of the script                          *)
(* ===================================================================== *)

(** ** Failures of the time-series request *)

(** X1. When the time-series request gets no response, or a response with
    a 4xx or 5xx status, [fetch_stock_data] returns no frame and an error
    that starts with "Network error: "; for a transport failure the rest
    of the message is the transport's own message. *)
Theorem X1_network_error symbol env w :
  (∀ msg, provider env (series_request symbol env) = NoResponse msg →
     (fetch_stock_data symbol env w).1
     = Ret (None, PStr ("Network error: " +:+ msg)))
  ∧ (∀ r, provider env (series_request symbol env) = Responds r →
       (400 ≤ status_code r < 600)%Z →
       ∃ msg, (fetch_stock_data symbol env w).1
              = Ret (None, PStr ("Network error: " +:+ msg))).
Proof.
  split.
  - intros msg Hreply. by rewrite fetch_stock_data_run, Hreply.
  - intros r Hreply Hcode. rewrite fetch_stock_data_run, Hreply.
    unfold series_result, body_of, requests.raise_for_status.
    destruct ((400 <=? status_code r) && (status_code r <? 500))%Z eqn:H4;
      [by eexists|].
    destruct ((500 <=? status_code r) && (status_code r <? 600))%Z eqn:H5;
      [by eexists|].
    apply andb_false_iff in H4, H5. lia.
Qed.

Lemma X1_witness :
  (fetch_stock_data "AAPL"
     (Sample.env (NoResponse "Read timed out.") (NoResponse "")) initial).1
  = Ret (None, PStr "Network error: Read timed out.")
  ∧ ∃ msg,
      (fetch_stock_data "AAPL"
         (Sample.env
            (Responds {| status_code := 429; reason := "Too Many Requests";
                         json_body := None |})
            (NoResponse "")) initial).1
      = Ret (None, PStr ("Network error: " +:+ msg)).
Proof.
  split.
  - apply (X1_network_error "AAPL"
             (Sample.env (NoResponse "Read timed out.") (NoResponse "")) initial).
    reflexivity.
  - eapply (X1_network_error "AAPL"
              (Sample.env
                 (Responds {| status_code := 429; reason := "Too Many Requests";
                              json_body := None |})
                 (NoResponse "")) initial).
    + reflexivity.
    + simpl. lia.
Defined.

(** X2. When no record of the payload carries a ["datetime"] field the
    whole payload is refused: no frame is returned and the error is
    "Error processing data: 'datetime'". *)
Theorem X2_no_datetime_column symbol env w r d (records : list (gmap string pyval)) :
  provider env (series_request symbol env) = Responds r →
  requests.raise_for_status r = Ret () →
  json_body r = Some (PDict d) →
  d !! "status" ≠ Some (PStr "error") →
  d !! "values" = Some (PList (PDict <$> records)) →
  records ≠ [] →
  Forall (λ record : gmap string pyval, record !! "datetime" = None) records →
  (fetch_stock_data symbol env w).1
  = Ret (None, PStr "Error processing data: 'datetime'").
Proof.
  intros Hreply Hstatus Hbody Hok Hvalues Hne Hnone.
  rewrite fetch_stock_data_run, Hreply. cbn [fst].
  rewrite (series_result_ok _ _ _ Hstatus Hbody). unfold read_series.
  rewrite (signals_error_dict_false _ Hok). cbn [mbind outcome_bind].
  rewrite lacks_values_dict, Hvalues.
  assert (Py.truthy (PList (PDict <$> records)) = true) as ->
    by (by destruct records).
  cbn [mbind outcome_bind negb Py.getitem]. rewrite Hvalues.
  cbn [mbind outcome_bind]. unfold normalize.
  rewrite DataFrame_of_records. cbn [mbind outcome_bind].
  unfold convert_columns. cbn [Pandas.raw_columns].
  rewrite bool_decide_eq_false_2; [done|].
  rewrite elem_of_union_list. intros (X & HX & Hin).
  apply list_elem_of_fmap in HX as (record & -> & Hrec).
  rewrite Forall_forall in Hnone. specialize (Hnone record Hrec).
  apply elem_of_dom in Hin as [? ?]. congruence.
Qed.

Lemma X2_witness :
  (fetch_stock_data "AAPL"
     (Sample.env
        (Sample.ok (PDict (Sample.series_data
                             [ {[ "date" := PStr "2024-01-12"; "close" := PStr "150.25" ]} ])))
        (NoResponse "")) initial).1
  = Ret (None, PStr "Error processing data: 'datetime'").
Proof.
  apply (X2_no_datetime_column "AAPL" _ initial
           {| status_code := 200; reason := "OK";
              json_body :=
                Some (PDict (Sample.series_data
                               [ {[ "date" := PStr "2024-01-12";
                                    "close" := PStr "150.25" ]} ])) |}
           (Sample.series_data
              [ {[ "date" := PStr "2024-01-12"; "close" := PStr "150.25" ]} ])
           [ {[ "date" := PStr "2024-01-12"; "close" := PStr "150.25" ]} ]).
  - reflexivity.
  - reflexivity.
  - reflexivity.
  - vm_compute. discriminate.
  - vm_compute. reflexivity.
  - discriminate.
  - repeat constructor.
Defined.

(** X3. A body that is JSON but no object is not read as one: [null], a
    boolean or a number ends in "Error processing data: ...", while an
    array that holds neither the text "status" nor the text "values" is
    taken for an object without values and ends in the no-data message. *)
Theorem X3_body_not_an_object symbol env w r data :
  provider env (series_request symbol env) = Responds r →
  requests.raise_for_status r = Ret () →
  json_body r = Some data →
  ((data = PNone ∨ (∃ b, data = PBool b) ∨ (∃ q, data = PNum q)) →
     ∃ msg, (fetch_stock_data symbol env w).1
            = Ret (None, PStr ("Error processing data: " +:+ msg)))
  ∧ (∀ items, data = PList items →
       Forall (λ item, item ≠ PStr "status" ∧ item ≠ PStr "values") items →
       (fetch_stock_data symbol env w).1
       = Ret (None, PStr ("No data found for symbol " +:+ symbol
                            +:+ ". Please check if the symbol is valid."))).
Proof.
  intros Hreply Hstatus Hbody.
  rewrite fetch_stock_data_run, Hreply. cbn [fst].
  rewrite (series_result_ok _ _ _ Hstatus Hbody). split.
  - intros [->|[[b ->]|[q ->]]]; by eexists.
  - intros items -> Hitems.
    assert (Hno : ∀ key, key = "status" ∨ key = "values" →
              existsb (λ x, match x with
                            | PStr s => String.eqb s key
                            | _ => false
                            end) items = false).
    { intros key Hkey. clear -Hitems Hkey.
      induction Hitems as [|item items [Hs Hv] _ IH]; [done|].
      simpl. rewrite IH, orb_false_r.
      destruct item as [ | | |s| | ]; try done.
      apply String.eqb_neq. intros ->. destruct Hkey as [-> | ->]; done. }
    unfold read_series, signals_error, lacks_values.
    cbn [Py.py_in mbind outcome_bind].
    rewrite !Hno by auto. reflexivity.
Qed.

Lemma X3_witness :
  (∃ msg, (fetch_stock_data "AAPL"
             (Sample.env (Sample.ok (PNum 42)) (NoResponse "")) initial).1
          = Ret (None, PStr ("Error processing data: " +:+ msg)))
  ∧ (fetch_stock_data "AAPL"
       (Sample.env (Sample.ok (PList [PStr "AAPL"; PNum 1])) (NoResponse ""))
       initial).1
    = Ret (None, PStr "No data found for symbol AAPL. Please check if the symbol is valid.").
Proof.
  split.
  - eapply (X3_body_not_an_object "AAPL"
              (Sample.env (Sample.ok (PNum 42)) (NoResponse "")) initial).
    + reflexivity.
    + reflexivity.
    + reflexivity.
    + right. right. by eexists.
  - eapply (X3_body_not_an_object "AAPL"
              (Sample.env (Sample.ok (PList [PStr "AAPL"; PNum 1])) (NoResponse ""))
              initial).
    + reflexivity.
    + reflexivity.
    + reflexivity.
    + reflexivity.
    + repeat constructor; discriminate.
Defined.

(** ** The quote request *)

(** X4. [fetch_current_quote], given an ASCII symbol, always returns
    normally, whatever the provider does, and sends exactly one request: a
    GET of [/quote] with a timeout of 10 and the two parameters symbol and
    apikey (the configured credential, "demo" when none is configured).
    The symbol goes out uppercased: what is sent has the length of the
    symbol, holds no lowercase letter and equals the symbol up to case.
    Nothing is drawn. *)
Theorem X4_quote_request symbol env w :
  Py.isascii symbol = true →
  (∃ quote, (fetch_current_quote symbol env w).1 = Ret quote)
  ∧ calls (fetch_current_quote symbol env w).2 =
      calls w ++
      [ {| url := "https://api.twelvedata.com/quote";
           params :=
             {[ "symbol" := Py.upper symbol;
                "apikey" := default "demo" (environ env !! "TWELVE_DATA_API_KEY") ]};
           timeout := 10 |} ]
  ∧ page (fetch_current_quote symbol env w).2 = page w
  ∧ String.length (Py.upper symbol) = String.length symbol
  ∧ Py.all_chars (λ c, negb (lowercase_letter c)) (Py.upper symbol) = true
  ∧ Py.lower (Py.upper symbol) = Py.lower symbol.
Proof.
  intros _. rewrite fetch_current_quote_run.
  split_and!; [by eexists|done|done|..].
  - apply upper_length.
  - apply upper_no_lowercase.
  - apply lower_upper.
Qed.

Lemma X4_witness :
  (∃ quote,
     (fetch_current_quote "brk.b"
        (Sample.env (NoResponse "")
           (Responds {| status_code := 503; reason := "Service Unavailable";
                        json_body := None |}))
        initial).1 = Ret quote)
  ∧ calls (fetch_current_quote "brk.b"
             (Sample.env (NoResponse "")
                (Responds {| status_code := 503; reason := "Service Unavailable";
                             json_body := None |}))
             initial).2 =
      [ {| url := "https://api.twelvedata.com/quote";
           params := {[ "symbol" := "BRK.B"; "apikey" := "demo" ]};
           timeout := 10 |} ].
Proof.
  destruct (X4_quote_request "brk.b"
              (Sample.env (NoResponse "")
                 (Responds {| status_code := 503; reason := "Service Unavailable";
                              json_body := None |}))
              initial) as (Hquote & Hcalls & _).
  - reflexivity.
  - split; [exact Hquote|exact Hcalls].
Defined.

(** X5. When the quote response is accepted and its body is a JSON object
    that does not signal an error, [fetch_current_quote] returns that
    object unchanged, whatever fields it holds. *)
Theorem X5_quote_passed_through symbol env w r d :
  provider env (quote_request symbol env) = Responds r →
  requests.raise_for_status r = Ret () →
  json_body r = Some (PDict d) →
  d !! "status" ≠ Some (PStr "error") →
  (fetch_current_quote symbol env w).1 = Ret (PDict d).
Proof.
  intros Hreply Hstatus Hbody Hok.
  rewrite fetch_current_quote_run, Hreply. cbn [fst].
  unfold quote_result. rewrite (body_of_ok _ _ Hstatus Hbody).
  cbn [mbind outcome_bind]. by rewrite (signals_error_dict_false _ Hok).
Qed.

Lemma X5_witness :
  (fetch_current_quote "AAPL"
     (Sample.env (NoResponse "") (Sample.ok Sample.quote_body)) initial).1
  = Ret (PDict Sample.quote).
Proof.
  apply (X5_quote_passed_through "AAPL" _ initial
           {| status_code := 200; reason := "OK";
              json_body := Some Sample.quote_body |}).
  - reflexivity.
  - reflexivity.
  - reflexivity.
  - vm_compute. discriminate.
Defined.

(** ** The frame that is returned *)

Lemma mapM_outcome_length {A B} (f : A → outcome B) (l : list A) (k : list B) :
  mapM f l = Ret k → length k = length l.
Proof.
  revert k. induction l as [|x l IH]; intros k; cbn.
  - by intros [= <-].
  - destruct (f x) as [y|]; [|done]. cbn.
    destruct (mapM f l) as [k'|] eqn:Hk; [|done]. cbn.
    intros [= <-]. cbn. f_equal. by apply IH.
Qed.

Lemma mapM_as_record_length items records :
  mapM Pandas.as_record items = Some records → length records = length items.
Proof. rewrite mapM_Some. intros H. symmetry. by eapply Forall2_length. Qed.

Lemma normalize_list_inv items df :
  normalize (PList items) = Ret df →
  "datetime" ∈ Pandas.columns df
  ∧ length (Pandas.rows df) = Nat.min 7 (length items)
  ∧ StronglySorted Pandas.datetime_le (Pandas.rows df).
Proof.
  unfold normalize, Pandas.DataFrame_of.
  destruct (mapM Pandas.as_record items) as [records|] eqn:Hrecords; [|done].
  cbn [mbind outcome_bind]. unfold convert_columns. cbn [Pandas.raw_columns Pandas.raw_rows].
  case_bool_decide as Hcol; [|done].
  destruct (mapM _ records) as [stamps|] eqn:Hstamps; [|done].
  cbn [mbind outcome_bind mret outcome_ret]. intros [= <-].
  set (frame := {| Pandas.columns := _; Pandas.rows := _ |}).
  destruct (sorted_tail_rows 7 frame) as (Hsorted & _ & Hlen & _).
  split_and!; [done| |done].
  rewrite Hlen. unfold frame. cbn [Pandas.rows].
  rewrite length_zip_with, (mapM_outcome_length _ _ _ Hstamps),
    (mapM_as_record_length _ _ Hrecords). lia.
Qed.

(** X6. Whenever [fetch_stock_data] returns a frame for a payload whose
    ["values"] is an array, the frame has a ["datetime"] column, as many
    rows as the array has items up to 7 and at least one, and its rows are
    in ascending order of date with undated rows last. *)
Theorem X6_returned_frame symbol env w r d items df error :
  provider env (series_request symbol env) = Responds r →
  json_body r = Some (PDict d) →
  d !! "values" = Some (PList items) →
  (fetch_stock_data symbol env w).1 = Ret (Some df, error) →
  error = PNone
  ∧ "datetime" ∈ Pandas.columns df
  ∧ length (Pandas.rows df) = Nat.min 7 (length items)
  ∧ 1 ≤ length (Pandas.rows df) ≤ 7
  ∧ StronglySorted Pandas.datetime_le (Pandas.rows df).
Proof.
  intros Hreply Hbody Hvalues.
  rewrite fetch_stock_data_run, Hreply. cbn [fst].
  unfold series_result, body_of, requests.json. rewrite Hbody.
  destruct (requests.raise_for_status r) as [[]|[]]; [|done..].
  cbn [mbind outcome_bind]. unfold read_series.
  destruct (signals_error (PDict d)) as [[]|[]]; [| |done..].
  { cbn [mbind outcome_bind Py.get]. done. }
  cbn [mbind outcome_bind]. rewrite lacks_values_dict, Hvalues.
  destruct (Py.truthy (PList items)) eqn:Htruthy; [|done].
  cbn [mbind outcome_bind negb Py.getitem]. rewrite Hvalues.
  cbn [mbind outcome_bind].
  destruct (normalize (PList items)) as [frame|[]] eqn:Hnorm; [|done..].
  cbn [mbind outcome_bind mret outcome_ret series_handlers].
  intros [= <- <-].
  destruct (normalize_list_inv _ _ Hnorm) as (Hcol & Hlen & Hsorted).
  split_and!; [done..| | |done].
  - rewrite Hlen. destruct items; [done|]. cbn [length]. lia.
  - lia.
Qed.

Lemma X6_witness :
  ∃ df,
    (fetch_stock_data "AAPL"
       (Sample.env (Sample.ok (PDict (Sample.series_data Sample.gappy_days)))
          (NoResponse "")) initial).1 = Ret (Some df, PNone)
    ∧ length (Pandas.rows df) = 2
    ∧ StronglySorted Pandas.datetime_le (Pandas.rows df).
Proof.
  eexists. split; [vm_compute; reflexivity|].
  edestruct (X6_returned_frame "AAPL"
               (Sample.env (Sample.ok (PDict (Sample.series_data Sample.gappy_days)))
                  (NoResponse "")) initial)
    as (_ & _ & Hlen & _ & Hsorted).
  - reflexivity.
  - reflexivity.
  - vm_compute. reflexivity.
  - vm_compute. reflexivity.
  - split; [exact Hlen|exact Hsorted].
Defined.

(** ** What the normaliser keeps, and in which order *)

Lemma zip_with_decode_bar_of (records : list (gmap string pyval)) (days : list Z) :
  mapM record_day records = Some days →
  zip_with decode records days = bar_of <$> records.
Proof.
  rewrite mapM_Some. induction 1 as [|record day records days Hday _ IH]; [done|].
  csimpl. rewrite IH. unfold bar_of. by rewrite Hday.
Qed.

Lemma mapM_record_day_fmap (records : list (gmap string pyval)) (days : list Z) :
  mapM record_day records = Some days → Some <$> days = record_day <$> records.
Proof.
  rewrite mapM_Some. induction 1 as [|record day records days Hday _ IH]; [done|].
  csimpl. by rewrite IH, Hday.
Qed.

(** X7. A well-formed payload of at most 7 records loses none: the rows
    of the frame are the decoded records, rearranged. *)
Theorem X7_short_payload_kept_whole symbol env w r d
    (records : list (gmap string pyval)) (days : list Z) :
  provider env (series_request symbol env) = Responds r →
  requests.raise_for_status r = Ret () →
  json_body r = Some (PDict d) →
  d !! "status" ≠ Some (PStr "error") →
  d !! "values" = Some (PList (PDict <$> records)) →
  records ≠ [] →
  mapM record_day records = Some days →
  length records ≤ 7 →
  ∃ df,
    (fetch_stock_data symbol env w).1 = Ret (Some df, PNone)
    ∧ Pandas.rows df ≡ₚ bar_of <$> records.
Proof.
  intros Hreply Hstatus Hbody Hok Hvalues Hne Hdays Hlen.
  rewrite fetch_stock_data_run, Hreply. cbn [fst].
  rewrite (series_result_ok _ _ _ Hstatus Hbody).
  rewrite (read_series_records _ _ _ _ Hok Hvalues Hne Hdays).
  cbn [series_handlers]. eexists. split; [reflexivity|].
  rewrite tail_rows. cbn [Pandas.sort_values_datetime Pandas.rows].
  rewrite merge_sort_Permutation at 1.
  rewrite length_zip_with.
  assert (Hlen' : length records = length days)
    by (apply mapM_Some in Hdays; by eapply Forall2_length).
  replace (length records `min` length days - 7) with 0 by lia.
  rewrite drop_0, merge_sort_Permutation.
  by rewrite (zip_with_decode_bar_of _ _ Hdays).
Qed.

Lemma X7_witness :
  ∃ df,
    (fetch_stock_data "AAPL"
       (Sample.env (Sample.ok (PDict (Sample.series_data Sample.gappy_days)))
          (NoResponse "")) initial).1 = Ret (Some df, PNone)
    ∧ Pandas.rows df ≡ₚ bar_of <$> Sample.gappy_days.
Proof.
  apply (X7_short_payload_kept_whole "AAPL" _ initial
           {| status_code := 200; reason := "OK";
              json_body := Some (PDict (Sample.series_data Sample.gappy_days)) |}
           (Sample.series_data Sample.gappy_days) Sample.gappy_days
           [738897; 738896]%Z).
  - reflexivity.
  - reflexivity.
  - reflexivity.
  - vm_compute. discriminate.
  - vm_compute. reflexivity.
  - discriminate.
  - vm_compute. reflexivity.
  - simpl. lia.
Defined.

Lemma NoDup_fmap_inj_on {A B} (f : A → B) (l : list A) x y :
  NoDup (f <$> l) → x ∈ l → y ∈ l → f x = f y → x = y.
Proof.
  induction l as [|z l IH]; csimpl; [by intros _ ?%elem_of_nil|].
  rewrite NoDup_cons, !elem_of_cons. intros [Hz Hl] [->|Hx] [->|Hy] Hf; auto.
  - exfalso. apply Hz. rewrite Hf. by apply list_elem_of_fmap_2.
  - exfalso. apply Hz. rewrite <- Hf. by apply list_elem_of_fmap_2.
Qed.

Lemma union_list_dom_Permutation (l1 l2 : list (gmap string pyval)) :
  l1 ≡ₚ l2 → ⋃ (dom <$> l1) =@{gset string} ⋃ (dom <$> l2).
Proof.
  intros Hperm. apply set_eq. intros x. rewrite !elem_of_union_list.
  split; intros (X & HX & Hx); exists X; split; try done;
    apply list_elem_of_fmap in HX as (record & -> & Hin);
    apply list_elem_of_fmap_2; [by rewrite <- Hperm|by rewrite Hperm].
Qed.

Lemma sorted_bars_unique (records1 records2 : list (gmap string pyval)) :
  records1 ≡ₚ records2 →
  NoDup (record_day <$> records1) →
  Forall (λ record, is_Some (record_day record)) records1 →
  merge_sort Pandas.datetime_le (bar_of <$> records1)
  = merge_sort Pandas.datetime_le (bar_of <$> records2).
Proof.
  intros Hperm Hnodup Hdated.
  apply (StronglySorted_unique_strong Pandas.datetime_le).
  - intros x1 x2. rewrite !merge_sort_Permutation, <- Hperm.
    intros (r1 & -> & Hr1)%list_elem_of_fmap (r2 & -> & Hr2)%list_elem_of_fmap.
    rewrite Forall_forall in Hdated.
    destruct (Hdated _ Hr1) as [d1 Hd1], (Hdated _ Hr2) as [d2 Hd2].
    unfold Pandas.datetime_le, bar_of. rewrite Hd1, Hd2. cbn.
    intros H12 H21. assert (d1 = d2) as -> by lia.
    assert (r1 = r2) as ->; [|done].
    apply (NoDup_fmap_inj_on record_day records1); [done..|congruence].
  - apply StronglySorted_merge_sort; apply _.
  - apply StronglySorted_merge_sort; apply _.
  - by rewrite !merge_sort_Permutation, Hperm.
Qed.

(** X8. The order in which the provider lists the records does not
    matter to what the frame holds: two well-formed payloads that hold the
    same records, with no date occurring twice, give frames with the same
    rows in the same order and the same set of columns.  (The order of the
    columns and the index labels of the rows, which pandas takes from the
    order of the payload, are not part of the model.) *)
Theorem X8_provider_order_irrelevant symbol env1 env2 w1 w2 r1 r2 d1 d2
    (records1 records2 : list (gmap string pyval)) (days1 days2 : list Z) :
  provider env1 (series_request symbol env1) = Responds r1 →
  requests.raise_for_status r1 = Ret () →
  json_body r1 = Some (PDict d1) →
  d1 !! "status" ≠ Some (PStr "error") →
  d1 !! "values" = Some (PList (PDict <$> records1)) →
  mapM record_day records1 = Some days1 →
  provider env2 (series_request symbol env2) = Responds r2 →
  requests.raise_for_status r2 = Ret () →
  json_body r2 = Some (PDict d2) →
  d2 !! "status" ≠ Some (PStr "error") →
  d2 !! "values" = Some (PList (PDict <$> records2)) →
  mapM record_day records2 = Some days2 →
  records1 ≠ [] →
  records1 ≡ₚ records2 →
  NoDup days1 →
  ∃ df1 df2,
    (fetch_stock_data symbol env1 w1).1 = Ret (Some df1, PNone)
    ∧ (fetch_stock_data symbol env2 w2).1 = Ret (Some df2, PNone)
    ∧ Pandas.rows df1 = Pandas.rows df2
    ∧ Pandas.columns df1 = Pandas.columns df2.
Proof.
  intros Hreply1 Hstatus1 Hbody1 Hok1 Hvalues1 Hdays1
         Hreply2 Hstatus2 Hbody2 Hok2 Hvalues2 Hdays2 Hne Hperm Hnodup.
  assert (Hne2 : records2 ≠ []).
  { intros ->. by apply Permutation_nil_r in Hperm. }
  rewrite !fetch_stock_data_run, Hreply1, Hreply2. cbn [fst].
  rewrite (series_result_ok _ _ _ Hstatus1 Hbody1),
    (series_result_ok _ _ _ Hstatus2 Hbody2).
  rewrite (read_series_records _ _ _ _ Hok1 Hvalues1 Hne Hdays1),
    (read_series_records _ _ _ _ Hok2 Hvalues2 Hne2 Hdays2).
  cbn [series_handlers]. eexists _, _. split; [reflexivity|]. split; [reflexivity|].
  unfold Pandas.tail, Pandas.sort_values_datetime. cbn [Pandas.columns Pandas.rows].
  rewrite (zip_with_decode_bar_of _ _ Hdays1), (zip_with_decode_bar_of _ _ Hdays2).
  rewrite (union_list_dom_Permutation _ _ Hperm).
  rewrite (sorted_bars_unique records1 records2 Hperm); [done| |].
  - rewrite <- (mapM_record_day_fmap _ _ Hdays1).
    by apply (NoDup_fmap_2 Some).
  - apply mapM_Some in Hdays1. clear -Hdays1.
    induction Hdays1; constructor; eauto.
Qed.

Lemma X8_witness :
  ∃ df1 df2,
    (fetch_stock_data "AAPL"
       (Sample.env (Sample.ok (PDict (Sample.series_data Sample.gappy_days)))
          (NoResponse "")) initial).1 = Ret (Some df1, PNone)
    ∧ (fetch_stock_data "AAPL"
         (Sample.env (Sample.ok (PDict (Sample.series_data (reverse Sample.gappy_days))))
            (NoResponse "")) initial).1 = Ret (Some df2, PNone)
    ∧ Pandas.rows df1 = Pandas.rows df2
    ∧ Pandas.columns df1 = Pandas.columns df2.
Proof.
  apply (X8_provider_order_irrelevant "AAPL" _ _ initial initial
           {| status_code := 200; reason := "OK";
              json_body := Some (PDict (Sample.series_data Sample.gappy_days)) |}
           {| status_code := 200; reason := "OK";
              json_body := Some (PDict (Sample.series_data (reverse Sample.gappy_days))) |}
           (Sample.series_data Sample.gappy_days)
           (Sample.series_data (reverse Sample.gappy_days))
           Sample.gappy_days (reverse Sample.gappy_days)
           [738897; 738896]%Z [738896; 738897]%Z).
  - reflexivity.
  - reflexivity.
  - reflexivity.
  - vm_compute. discriminate.
  - vm_compute. reflexivity.
  - vm_compute. reflexivity.
  - reflexivity.
  - reflexivity.
  - reflexivity.
  - vm_compute. discriminate.
  - vm_compute. reflexivity.
  - vm_compute. reflexivity.
  - discriminate.
  - symmetry. apply reverse_Permutation.
  - apply NoDup_cons. split; [by intros [=]%list_elem_of_singleton|apply NoDup_singleton].
Defined.

(** ** [main], lookup by lookup *)

Lemma main_lookup symbol search_button env w :
  accepted symbol →
  let ticker := Py.upper (Py.strip symbol) in
  let series := series_result ticker (provider env (series_request ticker env)) in
  main symbol search_button env w =
    render ticker series.1 series.2
      (quote_result (provider env (quote_request ticker env))) env
      (sent (quote_request ticker env)
         (sent (series_request ticker env)
            (drawn [st_spinner ("Fetching data for " +:+ ticker +:+ "...")] w))).
Proof.
  intros [Hne Hlen] ticker series.
  unfold main. rewrite (truthy_nonempty _ Hne), orb_true_r. cbn [andb].
  fold ticker. fold ticker in Hlen.
  assert (((String.length ticker <? 1) || (10 <? String.length ticker)) = false) as ->.
  { apply orb_false_iff. split; apply Nat.ltb_ge; lia. }
  rewrite run_bind_unfold, draw_run.
  rewrite run_bind_unfold, fetch_stock_data_run. fold series.
  destruct series as [df error]. cbn [fst snd].
  rewrite run_bind_unfold, fetch_current_quote_run.
  reflexivity.
Qed.

Lemma drawn_calls widgets w : calls (drawn widgets w) = calls w.
Proof. reflexivity. Qed.

Lemma display_stock_info_draws quote_data df env w :
  ∃ widgets, (display_stock_info quote_data df env w).2 = drawn widgets w.
Proof.
  destruct df as [frame|];
    [|exists []; by rewrite display_stock_info_absent, drawn_nil by (by right)].
  destruct (Py.truthy quote_data) eqn:Htruthy;
    [|exists []; by rewrite display_stock_info_absent, drawn_nil by (by left)].
  destruct quote_data as [ |b|x|s|l|q];
    try (exists []; rewrite drawn_nil; unfold display_stock_info;
         rewrite Htruthy; reflexivity).
  assert (Hq : q ≠ ∅).
  { intros ->. cbn in Htruthy. by rewrite bool_decide_eq_true_2 in Htruthy. }
  rewrite (display_stock_info_dict _ _ _ _ Hq).
  destruct (price_widgets q); [|exists []; by rewrite drawn_nil].
  destruct (change_widgets q); [|eauto].
  destruct (range_widgets frame); eauto.
Qed.

Lemma render_draws symbol df error quote_data env w :
  ∃ widgets, (render symbol df error quote_data env w).2 = drawn widgets w.
Proof.
  unfold render. destruct (Py.truthy error).
  { rewrite run_bind_unfold, !draw_run. cbn [snd]. rewrite drawn_drawn. eauto. }
  destruct df as [frame|]; [|rewrite draw_run; eauto].
  destruct (Pandas.empty frame); [rewrite draw_run; eauto|].
  rewrite run_bind_unfold, draw_run. rewrite run_bind_unfold.
  destruct (display_stock_info_draws quote_data (Some frame) env
              (drawn [st_success ("✅ Successfully loaded data for " +:+ symbol)] w))
    as [metrics Hmetrics].
  destruct (display_stock_info _ _ _ _) as [[[]|e] w'];
    cbn [snd] in Hmetrics; subst w'; rewrite drawn_drawn; [|eauto].
  rewrite run_bind_unfold, draw_run, drawn_drawn. rewrite run_bind_unfold.
  unfold lift at 1. destruct (create_price_chart frame symbol) as [chart|e]; [|eauto].
  rewrite run_bind_unfold, draw_run, drawn_drawn. rewrite run_bind_unfold.
  unfold lift at 1. destruct (display_table frame) as [table|e]; [|eauto].
  rewrite run_bind_unfold, draw_run, drawn_drawn.
  unfold instructions. destruct (negb _); [|eauto].
  rewrite !run_bind_unfold, !draw_run. cbn iota.
  rewrite !run_bind_unfold, !draw_run. cbn iota.
  rewrite !run_bind_unfold, !draw_run. cbn iota.
  rewrite !run_bind_unfold, !draw_run. cbn iota.
  rewrite !drawn_drawn. eauto.
Qed.

(** X9. For every ASCII input that passes validation and whatever the
    provider does, one run of [main] makes exactly two requests, the
    time-series request and then the quote request, both for the stripped,
    uppercased symbol; the quote is requested even when the time-series
    request failed. *)
Theorem X9_two_requests_per_lookup symbol search_button env w :
  Py.isascii symbol = true →
  symbol ≠ "" →
  1 ≤ String.length (Py.upper (Py.strip symbol)) ≤ 10 →
  calls (main symbol search_button env w).2 =
    calls w ++ [ series_request (Py.upper (Py.strip symbol)) env;
                 quote_request (Py.upper (Py.strip symbol)) env ].
Proof.
  intros _ Hne Hlen. rewrite (main_lookup _ _ _ _ (conj Hne Hlen)). cbv zeta.
  destruct (render_draws (Py.upper (Py.strip symbol))
              (series_result (Py.upper (Py.strip symbol))
                 (provider env (series_request (Py.upper (Py.strip symbol)) env))).1
              (series_result (Py.upper (Py.strip symbol))
                 (provider env (series_request (Py.upper (Py.strip symbol)) env))).2
              (quote_result (provider env (quote_request (Py.upper (Py.strip symbol)) env)))
              env
              (sent (quote_request (Py.upper (Py.strip symbol)) env)
                 (sent (series_request (Py.upper (Py.strip symbol)) env)
                    (drawn [st_spinner ("Fetching data for "
                                          +:+ Py.upper (Py.strip symbol) +:+ "...")] w))))
    as [widgets ->].
  unfold drawn, sent. cbn [calls]. by rewrite <- app_assoc.
Qed.

Lemma X9_witness :
  calls (main " aapl " false
           (Sample.env (NoResponse "Connection refused") (NoResponse "Connection refused"))
           initial).2
  = [ series_request "AAPL"
        (Sample.env (NoResponse "Connection refused") (NoResponse "Connection refused"));
      quote_request "AAPL"
        (Sample.env (NoResponse "Connection refused") (NoResponse "Connection refused")) ].
Proof.
  apply (X9_two_requests_per_lookup " aapl " false
           (Sample.env (NoResponse "Connection refused") (NoResponse "Connection refused"))
           initial).
  - reflexivity.
  - discriminate.
  - vm_compute. lia.
Defined.

(** X10. [main] looks at the input only through its stripped, uppercased
    form, and not at the button at all: two non-empty inputs that agree up
    to case and surrounding white space give the same run, with or without
    the button pressed; so do two runs on an empty input. *)
Theorem X10_input_read_up_to_case_and_space symbol1 symbol2 button1 button2 env w :
  (symbol1 = "" ↔ symbol2 = "") →
  Py.upper (Py.strip symbol1) = Py.upper (Py.strip symbol2) →
  main symbol1 button1 env w = main symbol2 button2 env w.
Proof.
  intros Hempty Hsame. unfold main.
  destruct (decide (symbol1 = "")) as [->|Hne1].
  - rewrite (proj1 Hempty eq_refl). reflexivity.
  - assert (Hne2 : symbol2 ≠ "") by (intros H; by apply Hne1, Hempty).
    rewrite !truthy_nonempty, !orb_true_r by done. cbn [andb].
    by rewrite Hsame.
Qed.

Lemma X10_witness :
  main " aapl " false (Sample.env (Sample.ok Sample.series_body) (NoResponse "")) initial
  = main "AAPL" true (Sample.env (Sample.ok Sample.series_body) (NoResponse "")) initial.
Proof.
  apply X10_input_read_up_to_case_and_space.
  - split; discriminate.
  - reflexivity.
Defined.

Lemma series_result_fetch symbol env w result :
  (fetch_stock_data symbol env w).1 = Ret result →
  series_result symbol (provider env (series_request symbol env)) = result.
Proof. rewrite fetch_stock_data_run. by intros [= ->]. Qed.

Lemma quote_result_fetch symbol env w quote :
  (fetch_current_quote symbol env w).1 = Ret quote →
  quote_result (provider env (quote_request symbol env)) = quote.
Proof. rewrite fetch_current_quote_run. by intros [= ->]. Qed.

(** X11. When the time-series fetch reports an error, [main] shows that
    error after a cross mark, then the tip, and nothing else: no metric,
    chart or table, whatever the quote request returned.  (The input is
    taken to be ASCII.) *)
Theorem X11_series_error_shown symbol search_button env w df text :
  let ticker := Py.upper (Py.strip symbol) in
  Py.isascii symbol = true →
  symbol ≠ "" →
  1 ≤ String.length ticker ≤ 10 →
  (fetch_stock_data ticker env w).1 = Ret (df, PStr text) →
  text ≠ "" →
  main symbol search_button env w =
    (Ret (),
     {| calls := calls w ++ [series_request ticker env; quote_request ticker env];
        page := page w ++
          [ st_spinner ("Fetching data for " +:+ ticker +:+ "...");
            st_error ("❌ " +:+ text);
            st_info "💡 **Tip**: Make sure you're using a valid stock symbol (e.g., AAPL for Apple, GOOGL for Google)" ] |}).
Proof.
  intros ticker _ Hne Hlen Hseries Htext.
  rewrite (main_lookup _ _ _ _ (conj Hne Hlen)). cbv zeta. fold ticker.
  rewrite (series_result_fetch _ _ _ _ Hseries). cbn [fst snd].
  unfold render. rewrite (truthy_nonempty _ Htext).
  rewrite run_bind_unfold, !draw_run.
  unfold drawn, sent. cbn [calls page Py.str]. by rewrite <- !app_assoc.
Qed.

Lemma X11_witness :
  main "zzzz" true
    (Sample.env (Sample.ok (PDict (Sample.series_data [])))
       (Sample.ok Sample.quote_body)) initial
  = (Ret (),
     {| calls :=
          [ series_request "ZZZZ"
              (Sample.env (Sample.ok (PDict (Sample.series_data [])))
                 (Sample.ok Sample.quote_body));
            quote_request "ZZZZ"
              (Sample.env (Sample.ok (PDict (Sample.series_data [])))
                 (Sample.ok Sample.quote_body)) ];
        page :=
          [ st_spinner "Fetching data for ZZZZ...";
            st_error "❌ No data found for symbol ZZZZ. Please check if the symbol is valid.";
            st_info "💡 **Tip**: Make sure you're using a valid stock symbol (e.g., AAPL for Apple, GOOGL for Google)" ] |}).
Proof.
  apply (X11_series_error_shown "zzzz" true
           (Sample.env (Sample.ok (PDict (Sample.series_data [])))
              (Sample.ok Sample.quote_body)) initial None
           "No data found for symbol ZZZZ. Please check if the symbol is valid.").
  - reflexivity.
  - discriminate.
  - vm_compute. lia.
  - vm_compute. reflexivity.
  - discriminate.
Defined.

(** X12. When the time-series fetch returns neither a frame nor an error
    that is truthy, as it does for an API error whose message is [null] or
    empty, [main] falls back to its own message "No data available for
    <symbol>. Please check the symbol and try again." and shows nothing
    else.  (The input is taken to be ASCII.) *)
Theorem X12_silent_failure_shown_as_no_data symbol search_button env w error :
  let ticker := Py.upper (Py.strip symbol) in
  Py.isascii symbol = true →
  symbol ≠ "" →
  1 ≤ String.length ticker ≤ 10 →
  (fetch_stock_data ticker env w).1 = Ret (None, error) →
  Py.truthy error = false →
  main symbol search_button env w =
    (Ret (),
     {| calls := calls w ++ [series_request ticker env; quote_request ticker env];
        page := page w ++
          [ st_spinner ("Fetching data for " +:+ ticker +:+ "...");
            st_error ("No data available for " +:+ ticker
                        +:+ ". Please check the symbol and try again.") ] |}).
Proof.
  intros ticker _ Hne Hlen Hseries Herror.
  rewrite (main_lookup _ _ _ _ (conj Hne Hlen)). cbv zeta. fold ticker.
  rewrite (series_result_fetch _ _ _ _ Hseries). cbn [fst snd].
  unfold render. rewrite Herror. rewrite draw_run.
  unfold drawn, sent. cbn [calls page]. by rewrite <- !app_assoc.
Qed.

Lemma X12_witness :
  page (main "AAPL" false
          (Sample.env
             (Sample.ok (PDict {[ "status" := PStr "error"; "message" := PNone ]}))
             (Sample.ok Sample.quote_body)) initial).2
  = [ st_spinner "Fetching data for AAPL...";
      st_error "No data available for AAPL. Please check the symbol and try again." ].
Proof.
  rewrite (X12_silent_failure_shown_as_no_data "AAPL" false
             (Sample.env
                (Sample.ok (PDict {[ "status" := PStr "error"; "message" := PNone ]}))
                (Sample.ok Sample.quote_body)) initial PNone).
  - reflexivity.
  - reflexivity.
  - discriminate.
  - vm_compute. lia.
  - vm_compute. reflexivity.
  - reflexivity.
Defined.

(** X13. A lookup in which both requests succeed draws, in this order:
    the spinner text, the success line, the metrics of the quote (current
    price, daily change) and of the series (7-day high and low), the chart
    heading, the chart and the table; nothing follows the table.  (The
    input is taken to be ASCII.) *)
Theorem X13_page_of_a_successful_lookup symbol search_button env w df q p c g :
  let ticker := Py.upper (Py.strip symbol) in
  Py.isascii symbol = true →
  symbol ≠ "" →
  1 ≤ String.length ticker ≤ 10 →
  (fetch_stock_data ticker env w).1 = Ret (Some df, PNone) →
  Pandas.rows df ≠ [] →
  Forall (λ col, col ∈ Pandas.columns df) page_columns →
  (fetch_current_quote ticker env w).1 = Ret (PDict q) →
  Py.truthy (PDict q) = true →
  price_widgets q = Ret p →
  change_widgets q = Ret c →
  range_widgets df = Ret g →
  ∃ chart table,
    create_price_chart df ticker = Ret chart
    ∧ display_table df = Ret table
    ∧ main symbol search_button env w =
        (Ret (),
         {| calls := calls w ++ [series_request ticker env; quote_request ticker env];
            page := page w ++
              [ st_spinner ("Fetching data for " +:+ ticker +:+ "...");
                st_success ("✅ Successfully loaded data for " +:+ ticker) ]
              ++ p ++ c ++ g ++
              [ st_subheader ("📊 " +:+ ticker +:+ " - 7-Day Price Chart");
                st_plotly_chart chart;
                st_dataframe table ] |}).
Proof.
  intros ticker _ Hne Hlen Hseries Hrows Hcols Hquote Hq Hp Hc Hg.
  destruct (display_table_ok df Hcols) as (table & Htable & _).
  eexists _, table. split; [apply create_price_chart_ok, Hcols|].
  split; [done|].
  rewrite (main_lookup _ _ _ _ (conj Hne Hlen)). cbv zeta. fold ticker.
  rewrite (series_result_fetch _ _ _ _ Hseries),
    (quote_result_fetch _ _ _ _ Hquote). cbn [fst snd].
  unfold render. cbn [Py.truthy]. unfold Pandas.empty.
  destruct (Pandas.rows df) as [|bar bars] eqn:Hr; [done|].
  rewrite run_bind_unfold, draw_run. rewrite run_bind_unfold.
  apply negb_true_iff, bool_decide_eq_false in Hq.
  rewrite (display_stock_info_dict _ _ _ _ Hq), Hp, Hc, Hg.
  rewrite run_bind_unfold, draw_run. rewrite run_bind_unfold. unfold lift at 1.
  rewrite (create_price_chart_ok _ _ Hcols).
  rewrite run_bind_unfold, draw_run. rewrite run_bind_unfold. unfold lift at 1.
  rewrite Htable. rewrite run_bind_unfold, draw_run.
  assert (Hticker : ticker ≠ "").
  { intros Heq. rewrite Heq in Hlen. simpl in Hlen. lia. }
  rewrite (instructions_nonempty _ _ _ Hticker).
  unfold drawn, sent. cbn [calls page]. rewrite Hr.
  by rewrite <- !app_assoc.
Qed.

Lemma X13_witness :
  ∃ chart table,
    page (main "aapl" false
            (Sample.env (Sample.ok Sample.series_body) (Sample.ok Sample.quote_body))
            initial).2
    = [ st_spinner "Fetching data for AAPL...";
        st_success "✅ Successfully loaded data for AAPL";
        st_metric "Current Price" "$150.25" None;
        st_metric "Daily Change" "$-1.50" (Some "-0.99%");
        st_metric "7-Day High" "$155.00" None;
        st_metric "7-Day Low" "$148.00" None;
        st_subheader "📊 AAPL - 7-Day Price Chart";
        st_plotly_chart chart;
        st_dataframe table ].
Proof.
  edestruct (X13_page_of_a_successful_lookup "aapl" false
               (Sample.env (Sample.ok Sample.series_body) (Sample.ok Sample.quote_body))
               initial)
    as (chart & table & _ & _ & Hmain).
  - reflexivity.
  - discriminate.
  - vm_compute. lia.
  - vm_compute. reflexivity.
  - discriminate.
  - repeat constructor; vm_compute; reflexivity.
  - vm_compute. reflexivity.
  - vm_compute. reflexivity.
  - vm_compute. reflexivity.
  - vm_compute. reflexivity.
  - vm_compute. reflexivity.
  - exists chart, table. rewrite Hmain. reflexivity.
Defined.

(** X14. [fetch_current_quote] hands on any JSON body that does not
    signal an error, object or not; when what it returns is truthy and not
    an object (a non-empty array or text), [display_stock_info] raises on
    its first field access, and [main] ends in that exception right after
    the success line: no metric, chart or table is drawn.  (The input is
    taken to be ASCII.) *)
Theorem X14_quote_that_is_no_object symbol search_button env w df quote_data :
  let ticker := Py.upper (Py.strip symbol) in
  Py.isascii symbol = true →
  symbol ≠ "" →
  1 ≤ String.length ticker ≤ 10 →
  (fetch_stock_data ticker env w).1 = Ret (Some df, PNone) →
  Pandas.rows df ≠ [] →
  (fetch_current_quote ticker env w).1 = Ret quote_data →
  Py.truthy quote_data = true →
  (∀ q, quote_data ≠ PDict q) →
  ∃ e,
    main symbol search_button env w =
      (Raise e,
       {| calls := calls w ++ [series_request ticker env; quote_request ticker env];
          page := page w ++
            [ st_spinner ("Fetching data for " +:+ ticker +:+ "...");
              st_success ("✅ Successfully loaded data for " +:+ ticker) ] |}).
Proof.
  intros ticker _ Hne Hlen Hseries Hrows Hquote Htruthy Hnodict.
  rewrite (main_lookup _ _ _ _ (conj Hne Hlen)). cbv zeta. fold ticker.
  rewrite (series_result_fetch _ _ _ _ Hseries),
    (quote_result_fetch _ _ _ _ Hquote). cbn [fst snd].
  unfold render. cbn [Py.truthy]. unfold Pandas.empty.
  destruct (Pandas.rows df) as [|bar bars] eqn:Hr; [done|].
  rewrite run_bind_unfold, draw_run. rewrite run_bind_unfold.
  unfold display_stock_info. rewrite Htruthy.
  rewrite run_bind_unfold. unfold lift at 1.
  destruct quote_data as [ |b|x|s|l|q]; try done;
    try (eexists; cbn [Py.get]; unfold drawn, sent; cbn [calls page];
         by rewrite <- !app_assoc).
  by destruct (Hnodict q).
Qed.

Lemma X14_witness :
  ∃ e,
    main "AAPL" false
      (Sample.env (Sample.ok Sample.series_body)
         (Sample.ok (PList [Sample.quote_body]))) initial
    = (Raise e,
       {| calls :=
            [ series_request "AAPL"
                (Sample.env (Sample.ok Sample.series_body)
                   (Sample.ok (PList [Sample.quote_body])));
              quote_request "AAPL"
                (Sample.env (Sample.ok Sample.series_body)
                   (Sample.ok (PList [Sample.quote_body]))) ];
          page :=
            [ st_spinner "Fetching data for AAPL...";
              st_success "✅ Successfully loaded data for AAPL" ] |}).
Proof.
  eapply (X14_quote_that_is_no_object "AAPL" false
            (Sample.env (Sample.ok Sample.series_body)
               (Sample.ok (PList [Sample.quote_body]))) initial).
  - reflexivity.
  - discriminate.
  - vm_compute. lia.
  - vm_compute. reflexivity.
  - discriminate.
  - vm_compute. reflexivity.
  - reflexivity.
  - discriminate.
Defined.

Lemma getitem_ok df name :
  name ∈ Pandas.columns df →
  Pandas.getitem df name = Ret (Pandas.numeric_field name <$> Pandas.rows df).
Proof. intros H. unfold Pandas.getitem. by rewrite bool_decide_eq_true_2. Qed.

Lemma getitem_missing df name :
  name ∉ Pandas.columns df →
  Pandas.getitem df name = Raise (Exception ("'" +:+ name +:+ "'")).
Proof. intros H. unfold Pandas.getitem. by rewrite bool_decide_eq_false_2. Qed.

Lemma display_table_inv df table :
  display_table df = Ret table →
  Forall (λ col, col ∈ Pandas.columns df) page_columns.
Proof.
  unfold display_table, Pandas.getitem_datetime, Pandas.getitem, page_columns.
  destruct (decide ("datetime" ∈ Pandas.columns df));
    [rewrite (bool_decide_eq_true_2 ("datetime" ∈ _)) by done
    |by rewrite (bool_decide_eq_false_2 ("datetime" ∈ _)) by done].
  destruct (decide ("open" ∈ Pandas.columns df));
    [rewrite (bool_decide_eq_true_2 ("open" ∈ _)) by done
    |by rewrite (bool_decide_eq_false_2 ("open" ∈ _)) by done].
  destruct (decide ("high" ∈ Pandas.columns df));
    [rewrite (bool_decide_eq_true_2 ("high" ∈ _)) by done
    |by rewrite (bool_decide_eq_false_2 ("high" ∈ _)) by done].
  destruct (decide ("low" ∈ Pandas.columns df));
    [rewrite (bool_decide_eq_true_2 ("low" ∈ _)) by done
    |by rewrite (bool_decide_eq_false_2 ("low" ∈ _)) by done].
  destruct (decide ("close" ∈ Pandas.columns df));
    [rewrite (bool_decide_eq_true_2 ("close" ∈ _)) by done
    |by rewrite (bool_decide_eq_false_2 ("close" ∈ _)) by done].
  destruct (decide ("volume" ∈ Pandas.columns df));
    [rewrite (bool_decide_eq_true_2 ("volume" ∈ _)) by done
    |by rewrite (bool_decide_eq_false_2 ("volume" ∈ _)) by done].
  intros _. rewrite !Forall_cons, Forall_nil. by split_and!.
Qed.

(** X15. The chart and the table read six columns of the frame and none
    is optional: when the payload gave the frame no column for one of
    datetime, open, high, low, close, volume, and there is no quote,
    [main] ends in an exception after the success line, and no table is
    drawn.  (The input is taken to be ASCII.) *)
Theorem X15_missing_column_is_fatal symbol search_button env w df quote_data :
  let ticker := Py.upper (Py.strip symbol) in
  Py.isascii symbol = true →
  symbol ≠ "" →
  1 ≤ String.length ticker ≤ 10 →
  (fetch_stock_data ticker env w).1 = Ret (Some df, PNone) →
  Pandas.rows df ≠ [] →
  (fetch_current_quote ticker env w).1 = Ret quote_data →
  Py.truthy quote_data = false →
  ¬ Forall (λ col, col ∈ Pandas.columns df) page_columns →
  ∃ e widgets,
    main symbol search_button env w =
      (Raise e,
       {| calls := calls w ++ [series_request ticker env; quote_request ticker env];
          page := page w ++
            [ st_spinner ("Fetching data for " +:+ ticker +:+ "...");
              st_success ("✅ Successfully loaded data for " +:+ ticker);
              st_subheader ("📊 " +:+ ticker +:+ " - 7-Day Price Chart") ]
            ++ widgets |})
    ∧ ∀ table, st_dataframe table ∉ widgets.
Proof.
  intros ticker _ Hne Hlen Hseries Hrows Hquote Htruthy Hcols.
  rewrite (main_lookup _ _ _ _ (conj Hne Hlen)). cbv zeta. fold ticker.
  rewrite (series_result_fetch _ _ _ _ Hseries),
    (quote_result_fetch _ _ _ _ Hquote). cbn [fst snd].
  unfold render. cbn [Py.truthy]. unfold Pandas.empty.
  destruct (Pandas.rows df) as [|bar bars] eqn:Hr; [done|].
  rewrite run_bind_unfold, draw_run. rewrite run_bind_unfold.
  rewrite display_stock_info_absent by (by left).
  rewrite run_bind_unfold, draw_run. rewrite run_bind_unfold. unfold lift at 1.
  assert (Hworld : ∀ extra,
            {| calls := calls w ++ [series_request ticker env; quote_request ticker env];
               page := page w ++
                 [ st_spinner ("Fetching data for " +:+ ticker +:+ "...");
                   st_success ("✅ Successfully loaded data for " +:+ ticker);
                   st_subheader ("📊 " +:+ ticker +:+ " - 7-Day Price Chart") ]
                 ++ extra |}
            = drawn extra
                (drawn [st_subheader ("📊 " +:+ ticker +:+ " - 7-Day Price Chart")]
                   (drawn [st_success ("✅ Successfully loaded data for " +:+ ticker)]
                      (sent (quote_request ticker env)
                         (sent (series_request ticker env)
                            (drawn [st_spinner ("Fetching data for " +:+ ticker +:+ "...")]
                               w)))))).
  { intros extra. unfold drawn, sent. cbn [calls page]. by rewrite <- !app_assoc. }
  destruct (create_price_chart df ticker) as [chart|e] eqn:Hchart.
  - rewrite run_bind_unfold, draw_run. rewrite run_bind_unfold. unfold lift at 1.
    destruct (display_table df) as [table|e] eqn:Htable.
    + exfalso. by apply Hcols, (display_table_inv df table).
    + exists e, [st_plotly_chart chart]. rewrite Hworld, drawn_drawn.
      split; [by rewrite drawn_drawn|].
      by intros table [=]%list_elem_of_singleton.
  - exists e, []. rewrite Hworld, drawn_nil.
    split; [done|]. by intros table ?%elem_of_nil.
Qed.

Lemma X15_witness :
  ∃ e widgets,
    main "AAPL" false
      (Sample.env (Sample.ok (PDict (Sample.series_data no_volume)))
         (NoResponse "timed out")) initial
    = (Raise e,
       {| calls :=
            [ series_request "AAPL"
                (Sample.env (Sample.ok (PDict (Sample.series_data no_volume)))
                   (NoResponse "timed out"));
              quote_request "AAPL"
                (Sample.env (Sample.ok (PDict (Sample.series_data no_volume)))
                   (NoResponse "timed out")) ];
          page :=
            [ st_spinner "Fetching data for AAPL...";
              st_success "✅ Successfully loaded data for AAPL";
              st_subheader "📊 AAPL - 7-Day Price Chart" ] ++ widgets |})
    ∧ ∀ table, st_dataframe table ∉ widgets.
Proof.
  eapply (X15_missing_column_is_fatal "AAPL" false
            (Sample.env (Sample.ok (PDict (Sample.series_data no_volume)))
               (NoResponse "timed out")) initial).
  - reflexivity.
  - discriminate.
  - vm_compute. lia.
  - vm_compute. reflexivity.
  - discriminate.
  - vm_compute. reflexivity.
  - reflexivity.
  - intros H. rewrite Forall_forall in H. specialize (H "volume").
    assert (Hin : "volume" ∈ page_columns)
      by (unfold page_columns; rewrite !elem_of_cons; tauto).
    apply H, (bool_decide_eq_true_2 _) in Hin.
    vm_compute in Hin. discriminate Hin.
Defined.

(** ** The chart and the table *)

Lemma create_price_chart_inv df symbol chart :
  create_price_chart df symbol = Ret chart →
  trace_x chart = Pandas.bar_datetime <$> Pandas.rows df
  ∧ trace_open chart = Pandas.bar_open <$> Pandas.rows df
  ∧ trace_high chart = Pandas.bar_high <$> Pandas.rows df
  ∧ trace_low chart = Pandas.bar_low <$> Pandas.rows df
  ∧ trace_close chart = Pandas.bar_close <$> Pandas.rows df.
Proof.
  unfold create_price_chart, Pandas.getitem_datetime, Pandas.getitem.
  destruct (decide ("datetime" ∈ Pandas.columns df));
    [rewrite (bool_decide_eq_true_2 ("datetime" ∈ _)) by done
    |by rewrite (bool_decide_eq_false_2 ("datetime" ∈ _)) by done].
  destruct (decide ("open" ∈ Pandas.columns df));
    [rewrite (bool_decide_eq_true_2 ("open" ∈ _)) by done
    |by rewrite (bool_decide_eq_false_2 ("open" ∈ _)) by done].
  destruct (decide ("high" ∈ Pandas.columns df));
    [rewrite (bool_decide_eq_true_2 ("high" ∈ _)) by done
    |by rewrite (bool_decide_eq_false_2 ("high" ∈ _)) by done].
  destruct (decide ("low" ∈ Pandas.columns df));
    [rewrite (bool_decide_eq_true_2 ("low" ∈ _)) by done
    |by rewrite (bool_decide_eq_false_2 ("low" ∈ _)) by done].
  destruct (decide ("close" ∈ Pandas.columns df));
    [rewrite (bool_decide_eq_true_2 ("close" ∈ _)) by done
    |by rewrite (bool_decide_eq_false_2 ("close" ∈ _)) by done].
  by intros [= <-].
Qed.

(** X16. The table and the chart show the same bars in the same order:
    the table has one row per point of the chart; the row at a position
    shows, to two decimals after a dollar sign, the open, high, low and
    close of the point at that position; and its date, for a year of four
    digits, is that point's date written YYYY-MM-DD. *)
Theorem X16_table_matches_chart df symbol chart table :
  create_price_chart df symbol = Ret chart →
  display_table df = Ret table →
  length table = length (trace_x chart)
  ∧ ∀ i row,
      table !! i = Some row →
      ∃ stamp open high low close,
        trace_x chart !! i = Some stamp
        ∧ trace_open chart !! i = Some open
        ∧ trace_high chart !! i = Some high
        ∧ trace_low chart !! i = Some low
        ∧ trace_close chart !! i = Some close
        ∧ Open row = "$" +:+ Decimal.format_2f_nan open
        ∧ High row = "$" +:+ Decimal.format_2f_nan high
        ∧ Low row = "$" +:+ Decimal.format_2f_nan low
        ∧ Close row = "$" +:+ Decimal.format_2f_nan close
        ∧ (∀ day, stamp = Some day → four_digit_year day →
             ∃ text, Date row = Some text
                     ∧ String.length text = 10
                     ∧ Calendar.parse_ymd text = Some day).
Proof.
  intros Hchart Htable.
  destruct (create_price_chart_inv _ _ _ Hchart) as (-> & -> & -> & -> & ->).
  pose proof (display_table_inv _ _ Htable) as Hcols.
  revert Htable. unfold display_table.
  unfold page_columns in Hcols. rewrite !Forall_cons in Hcols.
  destruct Hcols as (? & ? & ? & ? & ? & ? & _).
  unfold Pandas.getitem_datetime. rewrite !getitem_ok by done.
  rewrite bool_decide_eq_true_2 by done.
  cbn [mbind outcome_bind mret outcome_ret]. intros [= <-].
  split; [by rewrite !length_fmap|].
  intros i row. rewrite !list_lookup_fmap.
  destruct (Pandas.rows df !! i) as [bar|]; [|done]. cbn.
  intros [= <-]. eexists _, _, _, _, _. split_and!; try reflexivity.
  intros day -> [Hlo Hhi]. eexists. split; [reflexivity|]. split.
  - apply strftime_ymd_length.
  - apply parse_ymd_strftime_ymd. lia.
Qed.

Lemma X16_witness :
  ∃ chart table,
    create_price_chart Sample.frame "AAPL" = Ret chart
    ∧ display_table Sample.frame = Ret table
    ∧ length table = length (trace_x chart)
    ∧ ∃ row, table !! 1 = Some row
             ∧ Date row = Some "2024-01-12"
             ∧ Close row = "$152.50".
Proof.
  eexists _, _. split; [vm_compute; reflexivity|].
  split; [vm_compute; reflexivity|].
  edestruct (X16_table_matches_chart Sample.frame "AAPL") as [Hlen _].
  - vm_compute. reflexivity.
  - vm_compute. reflexivity.
  - split; [exact Hlen|]. eexists. split; [reflexivity|]. split; reflexivity.
Defined.
